(** * AVM-Action: the Terraform command runner, the Azure credential
    resolver and the action entry point, embedded from the Python sources
    under [.github/actions/avm-action/src].

    Python values are modelled as follows.
    - [str] is [string], the UTF-8 bytes of the text. The methods that
      consult the Unicode database ([lower], [upper], [strip], [isalnum],
      [repr]) are computed on ASCII text and taken from the host, as the
      record [Unicode], on any other text.
    - [str | None] is [option string]; truthiness is [truthy].
    - [os.environ] and the dictionary built by [set_terraform_env_vars] are
      [gmap string string].
    - [dict[str, str]] that is iterated ([var_overrides]) is an association
      list in insertion order, updated with [dict_set].
    - exceptions are values of [exn]; effectful code lives in the monad [M],
      whose state keeps the working directory and the trace of effects.
    - a record the logger writes to its stream handler is the event [Log];
      the time stamp in front of it is not modelled. *)

From Stdlib Require Import ZArith Ascii String DecimalString.
From stdpp Require Import gmap strings list.

Local Open Scope Z_scope.

(** ** Python primitives *)

Module Py.

Definition is_upper (c : ascii) : bool :=
  let n := nat_of_ascii c in (Nat.leb 65 n && Nat.leb n 90)%bool.

Definition is_lower (c : ascii) : bool :=
  let n := nat_of_ascii c in (Nat.leb 97 n && Nat.leb n 122)%bool.

Definition is_digit (c : ascii) : bool :=
  let n := nat_of_ascii c in (Nat.leb 48 n && Nat.leb n 57)%bool.

(** [str.isspace] on one character: tab, line feed, vertical tab, form
    feed, carriage return, the four separators 0x1c-0x1f and space. *)
Definition is_space (c : ascii) : bool :=
  let n := nat_of_ascii c in
  ((Nat.leb 9 n && Nat.leb n 13) || (Nat.leb 28 n && Nat.leb n 32))%bool.

Definition is_alnum (c : ascii) : bool :=
  (is_upper c || is_lower c || is_digit c)%bool.

Definition lower_char (c : ascii) : ascii :=
  if is_upper c then ascii_of_nat (nat_of_ascii c + 32) else c.

Definition upper_char (c : ascii) : ascii :=
  if is_lower c then ascii_of_nat (nat_of_ascii c - 32) else c.

Fixpoint map_chars (f : ascii -> ascii) (s : string) : string :=
  match s with
  | EmptyString => EmptyString
  | String c s' => String (f c) (map_chars f s')
  end.

(** [s.lower()] and [s.upper()] on ASCII text. *)
Definition ascii_lower : string -> string := map_chars lower_char.
Definition ascii_upper : string -> string := map_chars upper_char.

Fixpoint all_chars (p : ascii -> bool) (s : string) : bool :=
  match s with
  | EmptyString => true
  | String c s' => (p c && all_chars p s')%bool
  end.

Definition is_empty (s : string) : bool :=
  match s with EmptyString => true | String _ _ => false end.

(** [s.isalnum()] on ASCII text: false on the empty string. *)
Definition ascii_isalnum (s : string) : bool :=
  (negb (is_empty s) && all_chars is_alnum s)%bool.

Fixpoint lstrip (s : string) : string :=
  match s with
  | EmptyString => EmptyString
  | String c s' => if is_space c then lstrip s' else s
  end.

Fixpoint rstrip (s : string) : string :=
  match s with
  | EmptyString => EmptyString
  | String c s' =>
      let r := rstrip s' in
      if (is_empty r && is_space c)%bool then EmptyString else String c r
  end.

(** [s.strip()] on ASCII text. *)
Definition ascii_strip (s : string) : string := rstrip (lstrip s).

(** Text made of ASCII characters only. *)
Definition is_ascii_char (c : ascii) : bool := Nat.ltb (nat_of_ascii c) 128.

Definition is_ascii (s : string) : bool := all_chars is_ascii_char s.

(** A printable ASCII character other than the quote and the backslash:
    [repr] shows it as it is. *)
Definition is_plain_char (c : ascii) : bool :=
  let n := nat_of_ascii c in
  (Nat.leb 32 n && Nat.leb n 126 && negb (Nat.eqb n 39) && negb (Nat.eqb n 92))%bool.

(** What the Python runtime answers on text the model does not compute:
    [str.lower], [str.upper], [str.strip] and [str.isalnum] on text that
    is not ASCII, and [repr] of a string with a character that is not
    plain. *)
Record Unicode := {
  str_lower : string -> string;
  str_upper : string -> string;
  str_strip : string -> string;
  str_isalnum : string -> bool;
  str_repr : string -> string;
}.

(** [s.lower()], [s.upper()], [s.strip()], [s.isalnum()]. *)
Definition lower (u : Unicode) (s : string) : string :=
  if is_ascii s then ascii_lower s else str_lower u s.

Definition upper (u : Unicode) (s : string) : string :=
  if is_ascii s then ascii_upper s else str_upper u s.

Definition strip (u : Unicode) (s : string) : string :=
  if is_ascii s then ascii_strip s else str_strip u s.

Definition isalnum (u : Unicode) (s : string) : bool :=
  if is_ascii s then ascii_isalnum s else str_isalnum u s.

(** [s.replace(a, b)] for one-character [a] and [b]. *)
Definition replace_char (a b : ascii) : string -> string :=
  map_chars (fun c => if Ascii.eqb c a then b else c).

(** [s.replace(a, "")] for a one-character [a]. *)
Fixpoint remove_char (a : ascii) (s : string) : string :=
  match s with
  | EmptyString => EmptyString
  | String c s' =>
      if Ascii.eqb c a then remove_char a s' else String c (remove_char a s')
  end.

(** [s.split(sep)] for a one-character separator: never the empty list. *)
Fixpoint split (sep : ascii) (s : string) : list string :=
  match s with
  | EmptyString => [EmptyString]
  | String c s' =>
      if Ascii.eqb c sep then EmptyString :: split sep s'
      else match split sep s' with
           | [] => [String c EmptyString]
           | w :: ws => String c w :: ws
           end
  end.

(** [s.split(sep, 1)] when [sep] occurs in [s]: the text before the first
    occurrence and the text after it; [None] when [sep] does not occur. *)
Fixpoint split_once (sep : ascii) (s : string) : option (string * string) :=
  match s with
  | EmptyString => None
  | String c s' =>
      if Ascii.eqb c sep then Some (EmptyString, s')
      else match split_once sep s' with
           | Some (k, v) => Some (String c k, v)
           | None => None
           end
  end.

(** [c in s] for a character. *)
Fixpoint has_char (a : ascii) (s : string) : bool :=
  match s with
  | EmptyString => false
  | String c s' => (Ascii.eqb c a || has_char a s')%bool
  end.

(** [needle in hay] for strings. *)
Fixpoint contains (needle hay : string) : bool :=
  (String.prefix needle hay ||
   match hay with
   | EmptyString => false
   | String _ hay' => contains needle hay'
   end)%bool.

(** [sep.join(l)]. *)
Definition join (sep : string) (l : list string) : string :=
  String.concat sep l.

(** [repr(s)] of a string, and [repr(l)] of a list of strings. *)
Definition repr (u : Unicode) (s : string) : string :=
  if all_chars is_plain_char s then "'" +:+ s +:+ "'" else str_repr u s.

Definition repr_list (u : Unicode) (l : list string) : string :=
  "[" +:+ String.concat ", " (List.map (repr u) l) +:+ "]".

(** [str(n)] for an integer. *)
Definition str_of_int (n : Z) : string :=
  NilZero.string_of_int (Z.to_int n).

(** Truthiness of a [str | None] value. *)
Definition truthy (o : option string) : bool :=
  match o with
  | Some s => negb (is_empty s)
  | None => false
  end.

(** [a or b] on [str | None] values. *)
Definition or_else (a b : option string) : option string :=
  if truthy a then a else b.

(** An insertion-ordered [dict[str, str]]; [d[k] = v] keeps the position
    of a key that is already there. *)
Abbreviation dict := (list (string * string)).

Fixpoint dict_set (k v : string) (d : dict) : dict :=
  match d with
  | [] => [(k, v)]
  | (k', v') :: d' =>
      if String.eqb k' k then (k, v) :: d' else (k', v') :: dict_set k v d'
  end.

(** The exception classes the program raises or lets through. *)
Inductive exn :=
| ValueError (msg : string)
| RuntimeError (msg : string)
| NotImplementedError (msg : string)
| RecursionError (msg : string)
| OSError (msg : string)
| AttributeError (msg : string)
| TypeError (msg : string).

(** [isinstance(e, ValueError)]. *)
Definition is_ValueError (e : exn) : bool :=
  match e with ValueError _ => true | _ => false end.

(** [isinstance(e, RuntimeError)]: [NotImplementedError] and
    [RecursionError] are subclasses of [RuntimeError]. *)
Definition is_RuntimeError (e : exn) : bool :=
  match e with
  | RuntimeError _ | NotImplementedError _ | RecursionError _ => true
  | _ => false
  end.

(** [str(e)]. *)
Definition message (e : exn) : string :=
  match e with
  | ValueError m | RuntimeError m | NotImplementedError m
  | RecursionError m | OSError m | AttributeError m | TypeError m => m
  end.

End Py.

(** ** Effects: outcomes, the state of the process and the monad [M] *)

Module Eff.
Import Py.

(** The result of a call: a value, or a raised exception. *)
Inductive outcome (A : Type) :=
| Ok (a : A)
| Raise (e : exn).
Arguments Ok {A} a.
Arguments Raise {A} e.

Definition obind {A B} (o : outcome A) (k : A -> outcome B) : outcome B :=
  match o with
  | Ok a => k a
  | Raise e => Raise e
  end.

(** What the process does to the outside, in order. [Invoke] is a ghost
    event: it records that [run_command] was entered with a command,
    whether or not the command is then spawned. [Spawn] carries the
    working directory at the time of the call, the argument vector and
    the [env] argument of [subprocess.run] ([None]: not passed, the child
    inherits the environment of the process). [Log] is a record the logger
    hands to its handler, which writes it to standard output after the
    time, the logger's name and the level's name; [exc_info] says that the
    traceback of the exception being handled follows the message. *)
Inductive event :=
| Stdout (line : string)
| FileAppend (path text : string)
| Invoke (cmd : list string)
| Chdir (dir : string)
| Spawn (dir : string) (cmd : list string) (env : option (gmap string string))
| Log (levelno : Z) (msg : string) (exc_info : bool).

Record state := {
  cwd : string;
  trace : list event;
}.

Definition M (A : Type) : Type := state -> outcome A * state.

Definition ret {A} (a : A) : M A := fun s => (Ok a, s).

Definition raise {A} (e : exn) : M A := fun s => (Raise e, s).

Definition bind {A B} (c : M A) (k : A -> M B) : M B :=
  fun s =>
    match c s with
    | (Ok a, s') => k a s'
    | (Raise e, s') => (Raise e, s')
    end.

Definition lift {A} (o : outcome A) : M A := fun s => (o, s).

Definition emit (ev : event) : M unit :=
  fun s => (Ok tt, {| cwd := cwd s; trace := trace s ++ [ev] |}).

Definition getcwd : M string := fun s => (Ok (cwd s), s).

Definition setcwd (d : string) : M unit :=
  fun s => (Ok tt, {| cwd := d; trace := trace s |}).

(** [try: c except <class> as e: h e], the class given by its
    [isinstance] test. The effects of [c] up to the exception stay. *)
Definition try_except {A} (c : M A) (cls : exn -> bool) (h : exn -> M A) : M A :=
  fun s =>
    match c s with
    | (Ok a, s') => (Ok a, s')
    | (Raise e, s') => if cls e then h e s' else (Raise e, s')
    end.

(** [try: c finally: f]. An exception of [f] replaces the outcome of [c]. *)
Definition try_finally {A} (c : M A) (f : M unit) : M A :=
  fun s =>
    match c s with
    | (r, s') =>
        match f s' with
        | (Ok _, s'') => (r, s'')
        | (Raise e, s'') => (Raise e, s'')
        end
    end.

(** The argument vectors handed to [run_command], in order. *)
Definition invoked (t : list event) : list (list string) :=
  omap (fun ev => match ev with Invoke cmd => Some cmd | _ => None end) t.

(** The [env] arguments of the child processes spawned, in order. *)
Definition spawn_envs (t : list event) : list (option (gmap string string)) :=
  omap (fun ev => match ev with Spawn _ _ env => Some env | _ => None end) t.

End Eff.

Notation "'let*' x ':=' c 'in' k" := (Eff.bind c (fun x => k))
  (at level 10, x name, c at level 100, k at level 200).
Notation "'do*' c 'in' k" := (Eff.bind c (fun _ => k))
  (at level 10, c at level 100, k at level 200).

(** ** The host: the environment and the library calls the program makes *)

Module Sys.
Import Py Eff.

(** [json.loads(value)] followed by the test [isinstance(parsed, dict)]
    and the conversion of keys and values with [str]. [JsonRaises] is an
    exception of [json.loads] that is no [JSONDecodeError]: the
    [ValueError] of an integer literal over the digit limit, the
    [RecursionError] of a value nested too deep. *)
Inductive json_outcome :=
| JsonDict (items : dict)
| JsonOther
| JsonDecodeError
| JsonRaises (e : exn).

(** The value of an attribute of the module [logging], as far as
    [Logger.setLevel] tells values apart: an integer, a string, or
    anything else, given by its [repr]. *)
Inductive py_level :=
| LevelInt (n : Z)
| LevelStr (s : string)
| LevelOther (shown : string).

(** [subprocess.CompletedProcess]. *)
Record completed := {
  returncode : Z;
  out : string;
  err : string;
}.

(** The host: [os.environ]; [shutil.which]; [json.loads]; [os.chdir] from
    the current directory, giving the new one or an error;
    [subprocess.run] in a directory with its [env] argument; the Unicode
    answers of the runtime; the attributes of the module [logging] other
    than the level constants and [BASIC_FORMAT]; and writing a text at the
    end of a file opened in append mode. *)
Record OS := {
  environ : gmap string string;
  which : string -> option string;
  json_loads : string -> json_outcome;
  chdir : string -> string -> outcome string;
  subprocess_run :
    string -> list string -> option (gmap string string) -> outcome completed;
  unicode : Unicode;
  logging_attr : string -> option py_level;
  append_file : string -> string -> outcome unit;
}.

(** [os.environ.get(k)] *)
Definition env_get (os : OS) (k : string) : option string := environ os !! k.

(** [os.environ.get(k, d)] *)
Definition env_get_default (os : OS) (k d : string) : string :=
  default d (environ os !! k).

(** [os.chdir(d)] *)
Definition os_chdir (os : OS) (d : string) : M unit :=
  let* here := getcwd in
  match chdir os here d with
  | Ok there => do* setcwd there in emit (Chdir d)
  | Raise e => raise e
  end.

(** [with open(path, "a") as f: f.write(text)] *)
Definition os_append (os : OS) (path text : string) : M unit :=
  match append_file os path text with
  | Ok _ => emit (FileAppend path text)
  | Raise e => raise e
  end.

(** [subprocess.run(cmd, ..., env=env)]: the call is recorded even when
    it raises. *)
Definition os_subprocess_run (os : OS) (cmd : list string)
    (env : option (gmap string string)) : M completed :=
  let* here := getcwd in
  do* emit (Spawn here cmd env) in
  lift (subprocess_run os here cmd env).

End Sys.

(** ** The standard module [logging], as far as the program uses it *)

Module Logging.
Import Py Eff Sys.

Definition DEBUG : Z := 10.
Definition INFO : Z := 20.
Definition WARNING : Z := 30.
Definition ERROR : Z := 40.
Definition CRITICAL : Z := 50.

(** The table [logging._nameToLevel]; the same names are the integer
    constants of the module. *)
Definition name_to_level (name : string) : option Z :=
  if String.eqb name "CRITICAL" then Some CRITICAL
  else if String.eqb name "FATAL" then Some CRITICAL
  else if String.eqb name "ERROR" then Some ERROR
  else if String.eqb name "WARN" then Some WARNING
  else if String.eqb name "WARNING" then Some WARNING
  else if String.eqb name "INFO" then Some INFO
  else if String.eqb name "DEBUG" then Some DEBUG
  else if String.eqb name "NOTSET" then Some 0
  else None.

(** [getattr(logging, name, logging.INFO)] *)
Definition getattr_logging (os : OS) (name : string) : py_level :=
  match name_to_level name with
  | Some n => LevelInt n
  | None =>
      if String.eqb name "BASIC_FORMAT"
      then LevelStr "%(levelname)s:%(name)s:%(message)s"
      else default (LevelInt INFO) (logging_attr os name)
  end.

(** [logging._checkLevel], which [basicConfig(level=...)] and
    [Logger.setLevel] apply to their argument. *)
Definition check_level (u : Unicode) (level : py_level) : outcome Z :=
  match level with
  | LevelInt n => Ok n
  | LevelStr s =>
      match name_to_level s with
      | Some n => Ok n
      | None => Raise (ValueError ("Unknown level: " +:+ repr u s))
      end
  | LevelOther shown =>
      Raise (TypeError ("Level not an integer or a valid string: " +:+ shown))
  end.

(** A logger, by the level set on it. *)
Record Logger := { level : Z }.

(** [logger.log(levelno, msg)]: the record goes to the handler when the
    level of the logger allows it. *)
Definition log (logger : Logger) (levelno : Z) (msg : string) (exc_info : bool)
    : M unit :=
  if level logger <=? levelno then emit (Log levelno msg exc_info) else ret tt.

Definition debug (logger : Logger) (msg : string) : M unit :=
  log logger DEBUG msg false.

Definition info (logger : Logger) (msg : string) : M unit :=
  log logger INFO msg false.

Definition warning (logger : Logger) (msg : string) : M unit :=
  log logger WARNING msg false.

Definition error (logger : Logger) (msg : string) : M unit :=
  log logger ERROR msg false.

(** [logger.exception(msg)], inside an exception handler. *)
Definition exception (logger : Logger) (msg : string) : M unit :=
  log logger ERROR msg true.

End Logging.

(** ** config.py *)

Module config_py.
Import Py Eff Sys.

Inductive TerraformCommand := INIT | VALIDATE | PLAN | APPLY | DESTROY.

(** [command.value] *)
Definition value (c : TerraformCommand) : string :=
  match c with
  | INIT => "init"
  | VALIDATE => "validate"
  | PLAN => "plan"
  | APPLY => "apply"
  | DESTROY => "destroy"
  end.

(** [TerraformCommand(v)], [None] when it raises. *)
Definition command_of_value (v : string) : option TerraformCommand :=
  if String.eqb v "init" then Some INIT
  else if String.eqb v "validate" then Some VALIDATE
  else if String.eqb v "plan" then Some PLAN
  else if String.eqb v "apply" then Some APPLY
  else if String.eqb v "destroy" then Some DESTROY
  else None.

Inductive LogLevel := DEBUG | INFO | WARNING | ERROR.

(** [LogLevel(v)], [None] when it raises. *)
Definition level_of_value (v : string) : option LogLevel :=
  if String.eqb v "DEBUG" then Some DEBUG
  else if String.eqb v "INFO" then Some INFO
  else if String.eqb v "WARNING" then Some WARNING
  else if String.eqb v "ERROR" then Some ERROR
  else None.

Record AzureConfig := {
  subscription_id : string;
  tenant_id : string;
  client_id : string;
}.

Definition is_configured (self : AzureConfig) : bool :=
  (negb (is_empty (subscription_id self)) && negb (is_empty (tenant_id self)))%bool.

Record ActionConfig := {
  tf_directory : string;
  tfvars_files : list string;
  backend_config_file : string;
  command : TerraformCommand;
  workspace : string;
  azure : AzureConfig;
  var_overrides : dict;
  log_level : LogLevel;
}.

(** [ActionConfig.validate]. The test [isinstance(self.command,
    TerraformCommand)] holds of every value of the type. *)
Definition validate (u : Unicode) (self : ActionConfig) : list string :=
  let errors := [] in
  let errors :=
    if is_empty (tf_directory self)
    then errors ++ ["tf_directory cannot be empty"] else errors in
  let errors :=
    if (negb (is_empty (workspace self)) &&
        negb (isalnum u (remove_char "_" (remove_char "-" (workspace self)))))%bool
    then errors ++ ["Invalid workspace name: " +:+ workspace self] else errors in
  errors.

Definition _parse_tfvars_files (u : Unicode) (value : string) : list string :=
  if is_empty value then []
  else List.filter (fun f => negb (is_empty f)) (List.map (strip u) (split "," value)).

(** The key=value fallback loop of [_parse_var_overrides]. *)
Fixpoint parse_pairs (u : Unicode) (pairs : list string) (overrides : dict) : dict :=
  match pairs with
  | [] => overrides
  | item :: rest =>
      let item := strip u item in
      match split_once "=" item with
      | Some (key, val) =>
          parse_pairs u rest (dict_set (strip u key) (strip u val) overrides)
      | None => parse_pairs u rest overrides
      end
  end.

Definition _parse_command (u : Unicode) (value : string) : outcome TerraformCommand :=
  let value := strip u (lower u value) in
  match command_of_value value with
  | Some c => Ok c
  | None =>
      Raise (ValueError
               ("Invalid command '" +:+ value +:+
                "'. Valid commands: ['init', 'validate', 'plan', 'apply', 'destroy']"))
  end.

Definition _parse_log_level (u : Unicode) (value : string) : LogLevel :=
  let value := strip u (upper u value) in
  match level_of_value value with
  | Some l => l
  | None => INFO
  end.

Section WithOS.
Variable os : OS.

Definition _parse_var_overrides (value : string) : outcome dict :=
  if is_empty value then Ok []
  else
    match json_loads os value with
    | JsonDict items => Ok items
    | JsonRaises e => Raise e
    | JsonOther | JsonDecodeError =>
        Ok (parse_pairs (unicode os) (split "," (replace_char "010" "," value)) [])
    end.

(** The local function [get_input] of [load_config_from_env]. *)
Definition get_input (name default : string) : string :=
  env_get_default os ("INPUT_" +:+ upper (unicode os) name) default.

(** The arguments of [ActionConfig(...)] are evaluated in the order
    they are written: [_parse_command] before [_parse_var_overrides]. *)
Definition load_config_from_env : outcome ActionConfig :=
  let azure_config :=
    {| subscription_id := get_input "azure_subscription_id" "";
       tenant_id := get_input "azure_tenant_id" "";
       client_id := get_input "azure_client_id" "" |} in
  let command_str := get_input "command" "plan" in
  let log_level_str := get_input "log_level" "INFO" in
  let tf_directory' := get_input "tf_directory" "." in
  let tfvars_files' := _parse_tfvars_files (unicode os) (get_input "tfvars_files" "") in
  let backend_config_file' := get_input "backend_config_file" "" in
  obind (_parse_command (unicode os) command_str) (fun command' =>
  let workspace' := get_input "workspace" "default" in
  obind (_parse_var_overrides (get_input "var_overrides" "")) (fun var_overrides' =>
  Ok {| tf_directory := tf_directory';
        tfvars_files := tfvars_files';
        backend_config_file := backend_config_file';
        command := command';
        workspace := workspace';
        azure := azure_config;
        var_overrides := var_overrides';
        log_level := _parse_log_level (unicode os) log_level_str |})).

End WithOS.

End config_py.

(** ** terraform_runner.py *)

Module terraform_runner_py.
Import Py Eff Sys.
Import config_py (TerraformCommand, INIT, VALIDATE, PLAN, APPLY, DESTROY, ActionConfig).

Record CommandResult := {
  return_code : Z;
  stdout : string;
  stderr : string;
  command : list string;
}.

Record TerraformRunner := {
  config : ActionConfig;
  terraform_path : string;
  dry_run : bool;
}.

(** [for x in l: cmd.append(g(x))] *)
Definition append_each {A} (g : A -> string) (l : list A) (cmd : list string)
    : list string :=
  fold_left (fun cmd x => cmd ++ [g x]) l cmd.

Definition var_file_flag (tfvar_file : string) : string :=
  "-var-file=" +:+ tfvar_file.

Definition var_flag (item : string * string) : string :=
  "-var=" +:+ fst item +:+ "=" +:+ snd item.

(** [str(command)] of an enumeration member. *)
Definition enum_str (c : TerraformCommand) : string :=
  "TerraformCommand." +:+ ascii_upper (config_py.value c).

Definition command_eqb (a b : TerraformCommand) : bool :=
  String.eqb (config_py.value a) (config_py.value b).

Section Builders.
Variable self : TerraformRunner.

Definition build_init_command : list string :=
  let cmd := [terraform_path self; "init"; "-input=false"] in
  let cmd :=
    if negb (is_empty (config_py.backend_config_file (config self)))
    then cmd ++ ["-backend-config=" +:+ config_py.backend_config_file (config self)]
    else cmd in
  cmd.

Definition build_validate_command : list string :=
  [terraform_path self; "validate"].

Definition build_plan_command (out_file : option string) : list string :=
  let cmd := [terraform_path self; "plan"; "-input=false"] in
  let cmd := append_each var_file_flag (config_py.tfvars_files (config self)) cmd in
  let cmd := append_each var_flag (config_py.var_overrides (config self)) cmd in
  let cmd :=
    if truthy out_file then cmd ++ ["-out=" +:+ default "" out_file] else cmd in
  cmd.

Definition build_apply_command (plan_file : option string) : list string :=
  let cmd := [terraform_path self; "apply"; "-input=false"; "-auto-approve"] in
  let cmd :=
    if truthy plan_file then cmd ++ [default "" plan_file]
    else
      let cmd := append_each var_file_flag (config_py.tfvars_files (config self)) cmd in
      let cmd := append_each var_flag (config_py.var_overrides (config self)) cmd in
      cmd in
  cmd.

Definition build_destroy_command : list string :=
  let cmd := [terraform_path self; "destroy"; "-input=false"; "-auto-approve"] in
  let cmd := append_each var_file_flag (config_py.tfvars_files (config self)) cmd in
  let cmd := append_each var_flag (config_py.var_overrides (config self)) cmd in
  cmd.

Definition build_workspace_command : list string :=
  [terraform_path self; "workspace"; "select"; "-or-create=true";
   config_py.workspace (config self)].

(** The dictionary [builders] of [build_command]; a builder is called
    without arguments. *)
Definition builders : list (TerraformCommand * (unit -> list string)) :=
  [(INIT, fun _ => build_init_command);
   (VALIDATE, fun _ => build_validate_command);
   (PLAN, fun _ => build_plan_command None);
   (APPLY, fun _ => build_apply_command None);
   (DESTROY, fun _ => build_destroy_command)].

Definition build_command (command : TerraformCommand) : outcome (list string) :=
  match List.find (fun kb => command_eqb (fst kb) command) builders with
  | Some kb => Ok (snd kb tt)
  | None => Raise (ValueError ("Unsupported command: " +:+ enum_str command))
  end.

End Builders.

Section WithOS.
Variable os : OS.

(** [TerraformRunner._find_terraform] *)
Definition _find_terraform : M string :=
  let terraform := which os "terraform" in
  if truthy terraform then ret (default "" terraform)
  else raise (RuntimeError
         "Terraform binary not found in PATH. Please ensure Terraform is installed.").

(** [TerraformRunner.__init__] *)
Definition new (config : ActionConfig) (terraform_path : option string)
    (dry_run : bool) : M TerraformRunner :=
  let* terraform_path :=
    if truthy terraform_path then ret (default "" terraform_path)
    else _find_terraform in
  ret {| config := config; terraform_path := terraform_path; dry_run := dry_run |}.

Definition run_command (self : TerraformRunner) (cmd : list string)
    : M CommandResult :=
  do* emit (Invoke cmd) in
  if dry_run self then
    ret {| return_code := 0;
           stdout := "[DRY RUN] Would execute: " +:+ join " " cmd;
           stderr := "";
           command := cmd |}
  else
    let* original_dir := getcwd in
    try_finally
      (do* os_chdir os (config_py.tf_directory (config self)) in
       let* result := os_subprocess_run os cmd None in
       ret {| return_code := returncode result;
              stdout := out result;
              stderr := err result;
              command := cmd |})
      (os_chdir os original_dir).

(** [TerraformRunner.run]. The first step yields [Some r] when the
    method returns [r] from inside the workspace branch. *)
Definition run (self : TerraformRunner) : M CommandResult :=
  let* returned :=
    if (negb (is_empty (config_py.workspace (config self))) &&
        negb (String.eqb (config_py.workspace (config self)) "default"))%bool
    then
      let workspace_cmd := build_workspace_command self in
      let* workspace_result := run_command self workspace_cmd in
      if negb (return_code workspace_result =? 0)
      then ret (Some workspace_result)
      else ret None
    else ret None in
  match returned with
  | Some workspace_result => ret workspace_result
  | None =>
      let* cmd := lift (build_command self (config_py.command (config self))) in
      run_command self cmd
  end.

End WithOS.

End terraform_runner_py.

(** ** azure_auth.py *)

Module azure_auth_py.
Import Py Eff Sys.

Inductive AuthMethod := OIDC | SERVICE_PRINCIPAL | MANAGED_IDENTITY | CLI.

Module AzureCredentials.
(** Absent optional fields hold the empty string, the default of the
    dataclass. *)
Record t := {
  subscription_id : string;
  tenant_id : string;
  client_id : string;
  client_secret : string;
  token : string;
  auth_method : AuthMethod;
}.
End AzureCredentials.

Module AzureAuthenticator.
Record t := {
  subscription_id : string;
  tenant_id : string;
  client_id : string;
}.

(** [AzureAuthenticator.__init__] *)
Definition new (subscription_id tenant_id : string) (client_id : option string) : t :=
  {| subscription_id := subscription_id;
     tenant_id := tenant_id;
     client_id := default "" (or_else client_id (Some "")) |}.
End AzureAuthenticator.

Section WithOS.
Variable os : OS.

Definition detect_auth_method (self : AzureAuthenticator.t) : AuthMethod :=
  if truthy (env_get os "ACTIONS_ID_TOKEN_REQUEST_TOKEN") then OIDC
  else if truthy (or_else (env_get os "AZURE_CLIENT_SECRET")
                          (env_get os "ARM_CLIENT_SECRET"))
  then SERVICE_PRINCIPAL
  else if truthy (or_else (env_get os "MSI_ENDPOINT")
                          (env_get os "IDENTITY_ENDPOINT"))
  then MANAGED_IDENTITY
  else CLI.

Definition authenticate_oidc (self : AzureAuthenticator.t)
    : outcome AzureCredentials.t :=
  Raise (NotImplementedError
    ("OIDC authentication is not yet implemented. " +:+
     "As a workaround, use the 'azure/login' action before calling avm-action. " +:+
     "See docs/architecture.md for planned implementation.")).

Definition authenticate_service_principal (self : AzureAuthenticator.t)
    : outcome AzureCredentials.t :=
  let client_secret :=
    or_else (env_get os "AZURE_CLIENT_SECRET") (env_get os "ARM_CLIENT_SECRET") in
  if negb (truthy client_secret) then
    Raise (ValueError
      ("Service principal authentication requires AZURE_CLIENT_SECRET " +:+
       "or ARM_CLIENT_SECRET environment variable."))
  else
    Ok {| AzureCredentials.subscription_id := AzureAuthenticator.subscription_id self;
          AzureCredentials.tenant_id := AzureAuthenticator.tenant_id self;
          AzureCredentials.client_id := AzureAuthenticator.client_id self;
          AzureCredentials.client_secret := default "" client_secret;
          AzureCredentials.token := "";
          AzureCredentials.auth_method := SERVICE_PRINCIPAL |}.

Definition authenticate_cli (self : AzureAuthenticator.t) : outcome AzureCredentials.t :=
  Ok {| AzureCredentials.subscription_id := AzureAuthenticator.subscription_id self;
        AzureCredentials.tenant_id := AzureAuthenticator.tenant_id self;
        AzureCredentials.client_id := AzureAuthenticator.client_id self;
        AzureCredentials.client_secret := "";
        AzureCredentials.token := "";
        AzureCredentials.auth_method := CLI |}.

Definition authenticate (self : AzureAuthenticator.t) : outcome AzureCredentials.t :=
  let method := detect_auth_method self in
  match method with
  | OIDC => authenticate_oidc self
  | SERVICE_PRINCIPAL => authenticate_service_principal self
  | MANAGED_IDENTITY =>
      Raise (NotImplementedError
        ("Managed Identity authentication not yet implemented. " +:+
         "As a workaround, use the 'azure/login' action with managed identity, " +:+
         "or use CLI authentication by running 'az login' first."))
  | CLI => authenticate_cli self
  end.

Definition create_authenticator_from_env : option AzureAuthenticator.t :=
  let subscription_id := env_get_default os "INPUT_AZURE_SUBSCRIPTION_ID" "" in
  let tenant_id := env_get_default os "INPUT_AZURE_TENANT_ID" "" in
  let client_id := env_get_default os "INPUT_AZURE_CLIENT_ID" "" in
  if (is_empty subscription_id || is_empty tenant_id)%bool then None
  else Some (AzureAuthenticator.new subscription_id tenant_id (Some client_id)).

End WithOS.

(** [AzureAuthenticator.set_terraform_env_vars]; it does not read [self]. *)
Definition set_terraform_env_vars (credentials : AzureCredentials.t)
    : gmap string string :=
  let env_vars : gmap string string :=
    <["ARM_TENANT_ID" := AzureCredentials.tenant_id credentials]>
      (<["ARM_SUBSCRIPTION_ID" := AzureCredentials.subscription_id credentials]> ∅) in
  let env_vars :=
    if negb (is_empty (AzureCredentials.client_id credentials))
    then <["ARM_CLIENT_ID" := AzureCredentials.client_id credentials]> env_vars
    else env_vars in
  let env_vars :=
    if negb (is_empty (AzureCredentials.client_secret credentials))
    then <["ARM_CLIENT_SECRET" := AzureCredentials.client_secret credentials]> env_vars
    else env_vars in
  let env_vars :=
    if negb (is_empty (AzureCredentials.token credentials))
    then <["ARM_USE_OIDC" := "true"]>
           (<["ARM_OIDC_TOKEN" := AzureCredentials.token credentials]> env_vars)
    else env_vars in
  env_vars.

End azure_auth_py.

(** ** utils/logging.py *)

Module logging_py.
Import Py Eff Sys.

Definition nl : string := String "010" EmptyString.

Section WithOS.
Variable os : OS.

(** [basicConfig] checks the level and installs the handler that writes
    to standard output; [setLevel] checks the level again. *)
Definition setup_logging (level : option string) : M Logging.Logger :=
  let log_level :=
    default "" (or_else level (Some (env_get_default os "INPUT_LOG_LEVEL" "INFO"))) in
  let numeric_level := Logging.getattr_logging os (upper (unicode os) log_level) in
  let* _ := lift (Logging.check_level (unicode os) numeric_level) in
  let* n := lift (Logging.check_level (unicode os) numeric_level) in
  ret {| Logging.level := n |}.

Definition github_output (name value : string) : M unit :=
  let github_output_file := env_get os "GITHUB_OUTPUT" in
  if truthy github_output_file then
    if has_char "010" value then
      let delimiter := "EOF" in
      os_append os (default "" github_output_file)
        (name +:+ "<<" +:+ delimiter +:+ nl +:+ value +:+ nl +:+ delimiter +:+ nl)
    else
      os_append os (default "" github_output_file) (name +:+ "=" +:+ value +:+ nl)
  else
    emit (Stdout ("::set-output name=" +:+ name +:+ "::" +:+ value)).

End WithOS.

Definition github_error (message : string) : M unit :=
  emit (Stdout ("::error::" +:+ message)).

End logging_py.

(** ** main.py *)

Module main_py.
Import Py Eff Sys.
Import terraform_runner_py (TerraformRunner, CommandResult).

(** [config.<name>] for a name that is no field of [ActionConfig]. *)
Definition no_attribute (name : string) : M string :=
  raise (AttributeError
           ("'ActionConfig' object has no attribute '" +:+ name +:+ "'")).

Section WithOS.
Variable os : OS.
Variable logger : Logging.Logger.

(** The statements of [main] after [result = runner.run()]. *)
Definition report (result : CommandResult) : M Z :=
  do* logging_py.github_output os "plan_output" (terraform_runner_py.stdout result) in
  do* logging_py.github_output os "state_summary"
        ("Exit code: " +:+ str_of_int (terraform_runner_py.return_code result)) in
  if negb (terraform_runner_py.return_code result =? 0) then
    do* Logging.error logger
          ("Terraform command failed with exit code " +:+
           str_of_int (terraform_runner_py.return_code result)) in
    do* (if negb (is_empty (terraform_runner_py.stderr result))
         then Logging.error logger
                ("Error output: " +:+ terraform_runner_py.stderr result)
         else ret tt) in
    ret (terraform_runner_py.return_code result)
  else
    do* Logging.info logger "AVM Action completed successfully" in
    ret 0.

(** The inner [try] of [main]: the runner, or the value [main] returns
    from the [except RuntimeError] branch. *)
Definition create_runner (config : config_py.ActionConfig) : M (Z + TerraformRunner) :=
  try_except
    (let* runner := terraform_runner_py.new os config None true in
     ret (inr runner))
    is_RuntimeError
    (fun e =>
       do* Logging.warning logger (message e) in
       do* logging_py.github_output os "plan_output"
             "Terraform not installed - dry run mode" in
       do* logging_py.github_output os "state_summary"
             "No state changes (dry run)" in
       do* Logging.info logger
             "Action completed in dry-run mode (Terraform not available)" in
       ret (inl 0)).

(** The body of the outer [try] of [main]. The three version lines read
    attributes that [ActionConfig] does not have. *)
Definition body : M Z :=
  do* Logging.debug logger "Loading configuration from environment" in
  let* config := lift (config_py.load_config_from_env os) in
  let errors := config_py.validate (unicode os) config in
  if negb (Nat.eqb (length errors) 0) then
    do* fold_left
          (fun acc error =>
             do* acc in
             do* logging_py.github_error error in
             Logging.error logger ("Configuration error: " +:+ error))
          errors (ret tt) in
    ret 1
  else
    do* Logging.info logger
          ("Running Terraform " +:+ config_py.value (config_py.command config) +:+
           " in " +:+ config_py.tf_directory config) in
    do* Logging.debug logger ("Workspace: " +:+ config_py.workspace config) in
    do* Logging.debug logger
          ("tfvars files: " +:+ repr_list (unicode os) (config_py.tfvars_files config)) in
    let* avm_version := no_attribute "avm_version" in
    do* Logging.debug logger ("AVM version: " +:+ avm_version) in
    let* terraform_version := no_attribute "terraform_version" in
    do* Logging.debug logger ("Terraform version: " +:+ terraform_version) in
    let* azurerm_version := no_attribute "azurerm_version" in
    do* Logging.debug logger ("AzureRM provider version: " +:+ azurerm_version) in
    let* created := create_runner config in
    match created with
    | inl code => ret code
    | inr runner =>
        let* result := terraform_runner_py.run os runner in
        report result
    end.

(** The [try] statement of [main], from a logger. *)
Definition guarded : M Z :=
  try_except body (fun _ => true)
    (fun e =>
       if is_ValueError e then
         do* logging_py.github_error (message e) in
         do* Logging.error logger ("Validation error: " +:+ message e) in
         ret 1
       else
         do* logging_py.github_error ("Unexpected error: " +:+ message e) in
         do* Logging.exception logger "Unexpected error occurred" in
         ret 1).

End WithOS.

(** [setup_logging()] and the first record are outside the [try]. *)
Definition main (os : OS) : M Z :=
  let* logger := logging_py.setup_logging os None in
  do* Logging.info logger "Starting AVM Action" in
  guarded os logger.

End main_py.

(** ** Vocabulary of the statements *)

Module Obs.
Import Py Eff Sys.

(** The events a computation adds to the trace from a state. *)
Definition events_of {A} (c : M A) (s : state) : list event :=
  drop (length (trace s)) (trace (snd (c s))).

(** The argument vectors of the child processes spawned, in order. *)
Definition spawned (t : list event) : list (list string) :=
  omap (fun ev => match ev with Spawn _ cmd _ => Some cmd | _ => None end) t.

(** A variable counts as set when [os.environ.get] gives a non-empty
    string, the test the code applies. *)
Definition is_set (os : OS) (k : string) : bool := truthy (env_get os k).


(** The record a call of the logger at [levelno] passes on, if any. *)
Definition logged (logger : Logging.Logger) (levelno : Z) (msg : string)
    (exc_info : bool) : list event :=
  if Logging.level logger <=? levelno then [Log levelno msg exc_info] else [].

(** The line and the record [main] writes for one validation error. *)
Definition error_report (logger : Logging.Logger) (error : string) : list event :=
  Stdout ("::error::" +:+ error) ::
  logged logger Logging.ERROR ("Configuration error: " +:+ error) false.

(** What [main] writes before it loads the configuration. *)
Definition preamble (logger : Logging.Logger) : list event :=
  logged logger Logging.INFO "Starting AVM Action" false ++
  logged logger Logging.DEBUG "Loading configuration from environment" false.

(** What [main] writes about a configuration that validates, up to the
    first version line. *)
Definition summary (u : Unicode) (logger : Logging.Logger)
    (c : config_py.ActionConfig) : list event :=
  logged logger Logging.INFO
    ("Running Terraform " +:+ config_py.value (config_py.command c) +:+
     " in " +:+ config_py.tf_directory c) false ++
  logged logger Logging.DEBUG ("Workspace: " +:+ config_py.workspace c) false ++
  logged logger Logging.DEBUG
    ("tfvars files: " +:+ repr_list u (config_py.tfvars_files c)) false.

(** What the handlers of the outer [try] of [main] write for an
    exception. *)
Definition handled (logger : Logging.Logger) (e : exn) : list event :=
  if is_ValueError e then
    Stdout ("::error::" +:+ message e) ::
    logged logger Logging.ERROR ("Validation error: " +:+ message e) false
  else
    Stdout ("::error::Unexpected error: " +:+ message e) ::
    logged logger Logging.ERROR "Unexpected error occurred" true.

(** The exception of the first version line of [main]. *)
Definition no_avm_version : exn :=
  AttributeError "'ActionConfig' object has no attribute 'avm_version'".

(** Two hosts answer alike what the runner asks of them: changes of
    directory and child processes. *)
Definition same_answers (os1 os2 : OS) : Prop :=
  (forall here d, chdir os1 here d = chdir os2 here d) /\
  (forall d cmd env, subprocess_run os1 d cmd env = subprocess_run os2 d cmd env).

(** Two hosts have the same Python runtime: Unicode answers, [json.loads]
    and the attributes of [logging]. *)
Definition same_runtime (os1 os2 : OS) : Prop :=
  unicode os1 = unicode os2 /\
  (forall v, json_loads os1 v = json_loads os2 v) /\
  (forall name, logging_attr os1 name = logging_attr os2 name).

(** The same configuration with other Azure identifiers. *)
Definition with_azure (a : config_py.AzureConfig) (c : config_py.ActionConfig)
    : config_py.ActionConfig :=
  {| config_py.tf_directory := config_py.tf_directory c;
     config_py.tfvars_files := config_py.tfvars_files c;
     config_py.backend_config_file := config_py.backend_config_file c;
     config_py.command := config_py.command c;
     config_py.workspace := config_py.workspace c;
     config_py.azure := a;
     config_py.var_overrides := config_py.var_overrides c;
     config_py.log_level := config_py.log_level c |}.

Definition runner_with_azure (a : config_py.AzureConfig)
    (r : terraform_runner_py.TerraformRunner) : terraform_runner_py.TerraformRunner :=
  {| terraform_runner_py.config := with_azure a (terraform_runner_py.config r);
     terraform_runner_py.terraform_path := terraform_runner_py.terraform_path r;
     terraform_runner_py.dry_run := terraform_runner_py.dry_run r |}.

(** The environment variables the credential resolver reads: the five
    detection signals and the three identifier inputs. *)
Definition credential_vars : list string :=
  ["ACTIONS_ID_TOKEN_REQUEST_TOKEN"; "AZURE_CLIENT_SECRET"; "ARM_CLIENT_SECRET";
   "MSI_ENDPOINT"; "IDENTITY_ENDPOINT";
   "INPUT_AZURE_SUBSCRIPTION_ID"; "INPUT_AZURE_TENANT_ID"; "INPUT_AZURE_CLIENT_ID"].

(** Every flag of a variable-definition file sits at a smaller index of
    [cmd] than every flag of an override. *)
Definition files_before_overrides (cmd : list string)
    (files : list string) (overrides : dict) : Prop :=
  forall i j f kv,
    files !! i = Some f -> overrides !! j = Some kv ->
    exists a b,
      (a < b)%nat /\
      cmd !! a = Some (terraform_runner_py.var_file_flag f) /\
      cmd !! b = Some (terraform_runner_py.var_flag kv).

End Obs.

(** ** Concrete hosts, configurations and runners *)

Module Examples.
Import Py Eff Sys.

(** The runtime of the examples, whose texts are ASCII: it is asked
    nothing. *)
Definition runtime : Unicode :=
  {| str_lower := ascii_lower;
     str_upper := ascii_upper;
     str_strip := ascii_strip;
     str_isalnum := ascii_isalnum;
     str_repr := fun s => "'" +:+ s +:+ "'" |}.

(** A host whose external tool exits with [code] on every call. *)
Definition host (env : gmap string string) (tool : option string) (code : Z) : OS :=
  {| environ := env;
     which := fun _ => tool;
     json_loads := fun _ => JsonDecodeError;
     chdir := fun _ d => Ok d;
     subprocess_run := fun _ _ _ =>
       Ok {| returncode := code; out := ""; err := "workspace error" |};
     unicode := runtime;
     logging_attr := fun _ => None;
     append_file := fun _ _ => Ok tt |}.

(** A host whose external tool fails unless the environment its process
    gets, the one passed or else the one inherited, holds the client
    secret. *)
Definition host_needs_secret (env : gmap string string) : OS :=
  {| environ := env;
     which := fun _ => Some "/usr/bin/terraform";
     json_loads := fun _ => JsonDecodeError;
     chdir := fun _ d => Ok d;
     subprocess_run := fun _ _ passed =>
       if truthy (default env passed !! "ARM_CLIENT_SECRET")
       then Ok {| returncode := 0; out := ""; err := "" |}
       else Ok {| returncode := 1; out := ""; err := "no credentials" |};
     unicode := runtime;
     logging_attr := fun _ => None;
     append_file := fun _ _ => Ok tt |}.

(** A host on which the file of outputs cannot be opened. *)
Definition host_read_only (env : gmap string string) : OS :=
  {| environ := env;
     which := fun _ => None;
     json_loads := fun _ => JsonDecodeError;
     chdir := fun _ d => Ok d;
     subprocess_run := fun _ _ _ =>
       Ok {| returncode := 0; out := ""; err := "" |};
     unicode := runtime;
     logging_attr := fun _ => None;
     append_file := fun _ _ => Raise (OSError "Read-only file system") |}.

Definition start : state := {| cwd := "/home/runner/work"; trace := [] |}.

Definition no_azure : config_py.AzureConfig :=
  {| config_py.subscription_id := "";
     config_py.tenant_id := "";
     config_py.client_id := "" |}.

Definition cfg (ws : string) : config_py.ActionConfig :=
  {| config_py.tf_directory := ".";
     config_py.tfvars_files := ["dev.tfvars"; "common.tfvars"];
     config_py.backend_config_file := "";
     config_py.command := config_py.PLAN;
     config_py.workspace := ws;
     config_py.azure := no_azure;
     config_py.var_overrides := [("env", "dev")];
     config_py.log_level := config_py.INFO |}.

Definition runner (ws : string) (dry : bool) : terraform_runner_py.TerraformRunner :=
  {| terraform_runner_py.config := cfg ws;
     terraform_runner_py.terraform_path := "/usr/bin/terraform";
     terraform_runner_py.dry_run := dry |}.

(** What [load_config_from_env] gives under the empty environment. *)
Definition cfg_default : config_py.ActionConfig :=
  {| config_py.tf_directory := ".";
     config_py.tfvars_files := [];
     config_py.backend_config_file := "";
     config_py.command := config_py.PLAN;
     config_py.workspace := "default";
     config_py.azure := no_azure;
     config_py.var_overrides := [];
     config_py.log_level := config_py.INFO |}.

Definition runner_default : terraform_runner_py.TerraformRunner :=
  {| terraform_runner_py.config := cfg_default;
     terraform_runner_py.terraform_path := "/usr/bin/terraform";
     terraform_runner_py.dry_run := true |}.

Definition plan_cmd : list string :=
  ["/usr/bin/terraform"; "plan"; "-input=false"].

(** What the dry run of [runner_default] returns. *)
Definition dry_result : terraform_runner_py.CommandResult :=
  {| terraform_runner_py.return_code := 0;
     terraform_runner_py.stdout :=
       "[DRY RUN] Would execute: /usr/bin/terraform plan -input=false";
     terraform_runner_py.stderr := "";
     terraform_runner_py.command := plan_cmd |}.

(** What [load_config_from_env] gives under [env_empty_workspace]. *)
Definition cfg_empty_workspace : config_py.ActionConfig :=
  {| config_py.tf_directory := ".";
     config_py.tfvars_files := [];
     config_py.backend_config_file := "";
     config_py.command := config_py.PLAN;
     config_py.workspace := "";
     config_py.azure := no_azure;
     config_py.var_overrides := [];
     config_py.log_level := config_py.INFO |}.

Definition runner_empty_workspace : terraform_runner_py.TerraformRunner :=
  {| terraform_runner_py.config := cfg_empty_workspace;
     terraform_runner_py.terraform_path := "/usr/bin/terraform";
     terraform_runner_py.dry_run := true |}.

Definition authenticator : azure_auth_py.AzureAuthenticator.t :=
  azure_auth_py.AzureAuthenticator.new "sub-123" "tenant-456" (Some "client-789").

Definition oidc_credentials : azure_auth_py.AzureCredentials.t :=
  {| azure_auth_py.AzureCredentials.subscription_id := "sub-123";
     azure_auth_py.AzureCredentials.tenant_id := "tenant-456";
     azure_auth_py.AzureCredentials.client_id := "client-789";
     azure_auth_py.AzureCredentials.client_secret := "";
     azure_auth_py.AzureCredentials.token := "tok";
     azure_auth_py.AzureCredentials.auth_method := azure_auth_py.OIDC |}.

Definition env_sp_and_msi : gmap string string :=
  <["ARM_CLIENT_SECRET" := "s3cret"]> (<["MSI_ENDPOINT" := "http://msi"]> ∅).

Definition env_bad_command : gmap string string :=
  <["INPUT_COMMAND" := "bogus"]> ∅.

Definition env_empty_workspace : gmap string string :=
  <["INPUT_WORKSPACE" := ""]> ∅.

Definition env_oidc : gmap string string :=
  <["ACTIONS_ID_TOKEN_REQUEST_TOKEN" := "tok"]> ∅.


Definition env_secret : gmap string string :=
  <["ARM_CLIENT_SECRET" := "s3cret"]> ∅.


Definition env_output_file : gmap string string :=
  <["GITHUB_OUTPUT" := "/tmp/out"]> ∅.

Definition info_logger : Logging.Logger := {| Logging.level := Logging.INFO |}.


End Examples.

(** ** Vocabulary of the further statements *)

Module ObsMore.
Import Py Eff Sys.





(** No leading and no trailing whitespace. *)
Definition stripped (u : Unicode) (s : string) : Prop := strip u s = s.

(** The variables [set_terraform_env_vars] may set. *)
Definition arm_vars : list string :=
  ["ARM_SUBSCRIPTION_ID"; "ARM_TENANT_ID"; "ARM_CLIENT_ID"; "ARM_CLIENT_SECRET";
   "ARM_OIDC_TOKEN"; "ARM_USE_OIDC"].

(** The variables [load_config_from_env] reads. *)
Definition input_vars : list string :=
  ["INPUT_AZURE_SUBSCRIPTION_ID"; "INPUT_AZURE_TENANT_ID"; "INPUT_AZURE_CLIENT_ID";
   "INPUT_COMMAND"; "INPUT_LOG_LEVEL"; "INPUT_TF_DIRECTORY"; "INPUT_TFVARS_FILES";
   "INPUT_BACKEND_CONFIG_FILE"; "INPUT_WORKSPACE"; "INPUT_VAR_OVERRIDES"].

(** The workspace test of [run]. *)
Definition selects (ws : string) : bool :=
  (negb (is_empty ws) && negb (String.eqb ws "default"))%bool.

End ObsMore.

(** ** Further concrete inputs *)

Module MoreExamples.
Import Py Eff Sys.



(** A host on which entering a directory fails. *)
Definition host_no_dir : OS :=
  {| environ := ∅;
     which := fun _ => Some "/usr/bin/terraform";
     json_loads := fun _ => JsonDecodeError;
     chdir := fun here d =>
       if String.eqb d "." then Raise (OSError "No such file or directory") else Ok d;
     subprocess_run := fun _ _ _ =>
       Ok {| returncode := 0; out := ""; err := "" |};
     unicode := Examples.runtime;
     logging_attr := fun _ => None;
     append_file := fun _ _ => Ok tt |}.

(** A host on which the child process cannot be started. *)
Definition host_no_exec : OS :=
  {| environ := ∅;
     which := fun _ => None;
     json_loads := fun _ => JsonDecodeError;
     chdir := fun _ d => Ok d;
     subprocess_run := fun _ _ _ => Raise (OSError "No such file or directory");
     unicode := Examples.runtime;
     logging_attr := fun _ => None;
     append_file := fun _ _ => Ok tt |}.

Definition env_azure : gmap string string :=
  <["INPUT_AZURE_SUBSCRIPTION_ID" := "sub-123"]>
    (<["INPUT_AZURE_TENANT_ID" := "tenant-456"]> ∅).

(** An integer literal of 4301 digits. *)
Definition long_integer : string :=
  fold_right (fun _ acc => String "1" acc) EmptyString (seq 0 4301).

Definition env_long_integer : gmap string string :=
  <["INPUT_VAR_OVERRIDES" := long_integer]> ∅.

(** [json.loads] on a text of digits: an integer, unless it has more
    digits than the conversion of strings to integers allows. *)
Definition loads_digits (v : string) : json_outcome :=
  if (negb (is_empty v) && all_chars is_digit v)%bool then
    if Nat.ltb 4300 (String.length v) then
      JsonRaises
        (ValueError
           ("Exceeds the limit (4300 digits) for integer string conversion: value has " +:+
            str_of_int (Z.of_nat (String.length v)) +:+
            " digits; use sys.set_int_max_str_digits() to increase the limit"))
    else JsonOther
  else JsonDecodeError.

Definition host_long_integer : OS :=
  {| environ := env_long_integer;
     which := fun _ => Some "/usr/bin/terraform";
     json_loads := loads_digits;
     chdir := fun _ d => Ok d;
     subprocess_run := fun _ _ _ =>
       Ok {| returncode := 0; out := ""; err := "" |};
     unicode := Examples.runtime;
     logging_attr := fun _ => None;
     append_file := fun _ _ => Ok tt |}.

End MoreExamples.

(** * Properties *)

(** ** The model on the inputs of the test suite *)

Section Checks.
Import Py Eff Sys.

Example split_commas : split "," "a,,b" = ["a"; ""; "b"].
Proof. reflexivity. Qed.

Example strip_spaces (u : Unicode) : strip u "  a b  " = "a b".
Proof. reflexivity. Qed.

Example str_of_int_values :
  (str_of_int 0, str_of_int (-12), str_of_int 37) = ("0", "-12", "37").
Proof. reflexivity. Qed.

Example parse_tfvars_with_spaces (u : Unicode) :
  config_py._parse_tfvars_files u "dev.tfvars , common.tfvars,," =
    ["dev.tfvars"; "common.tfvars"].
Proof. reflexivity. Qed.

Example parse_command_plan (u : Unicode) :
  config_py._parse_command u "  PLAN " = Ok config_py.PLAN.
Proof. reflexivity. Qed.

Example validate_rejects_workspace (u : Unicode) :
  config_py.validate u (Examples.cfg "invalid workspace!") =
    ["Invalid workspace name: invalid workspace!"].
Proof. reflexivity. Qed.

Example setup_logging_debug :
  fst (logging_py.setup_logging
         (Examples.host (<["INPUT_LOG_LEVEL" := "debug"]> ∅) None 0) None
         Examples.start) = Ok {| Logging.level := 10 |}.
Proof. reflexivity. Qed.

Example github_output_appends :
  logging_py.github_output (Examples.host Examples.env_output_file None 0)
    "plan_output" "ok" Examples.start =
    (Ok tt,
     {| cwd := "/home/runner/work";
        trace := [FileAppend "/tmp/out" ("plan_output=ok" +:+ logging_py.nl)] |}).
Proof. reflexivity. Qed.

Example output_file_error :
  main_py.create_runner (Examples.host_read_only Examples.env_output_file)
    Examples.info_logger Examples.cfg_default Examples.start =
    (Raise (OSError "Read-only file system"),
     {| cwd := "/home/runner/work";
        trace := [Log 30
                    "Terraform binary not found in PATH. Please ensure Terraform is installed."
                    false] |}).
Proof. reflexivity. Qed.

Example build_workspace_production :
  terraform_runner_py.build_workspace_command (Examples.runner "production" true) =
    ["/usr/bin/terraform"; "workspace"; "select"; "-or-create=true"; "production"].
Proof. reflexivity. Qed.

Example dry_run_of_plan :
  fst (terraform_runner_py.run (Examples.host ∅ None 0)
         (Examples.runner "default" true) Examples.start) =
    Ok {| terraform_runner_py.return_code := 0;
          terraform_runner_py.stdout :=
            "[DRY RUN] Would execute: /usr/bin/terraform plan -input=false " +:+
            "-var-file=dev.tfvars -var-file=common.tfvars -var=env=dev";
          terraform_runner_py.stderr := "";
          terraform_runner_py.command :=
            ["/usr/bin/terraform"; "plan"; "-input=false"; "-var-file=dev.tfvars";
             "-var-file=common.tfvars"; "-var=env=dev"] |}.
Proof. reflexivity. Qed.
End Checks.

Section PyFacts.
Import Py.

Lemma is_empty_true (s : string) : is_empty s = true <-> s = "".
Proof. destruct s; simpl; split; congruence. Qed.

Lemma is_empty_false (s : string) : is_empty s = false <-> s <> "".
Proof. destruct s; simpl; split; congruence. Qed.

Lemma truthy_Some (v : string) : v <> "" -> truthy (Some v) = true.
Proof. intros Hv. simpl. apply is_empty_false in Hv. now rewrite Hv. Qed.

Lemma truthy_inv (o : option string) :
  truthy o = true -> exists v, o = Some v /\ v <> "".
Proof.
  destruct o as [v|]; simpl; [|discriminate].
  intros H. exists v. split; [reflexivity|].
  apply is_empty_false. now destruct (is_empty v).
Qed.

Lemma or_else_left (a b : option string) : truthy a = true -> or_else a b = a.
Proof. unfold or_else. now intros ->. Qed.

Lemma or_else_right (a b : option string) : truthy a = false -> or_else a b = b.
Proof. unfold or_else. now intros ->. Qed.
End PyFacts.

Section AuthFacts.
Import Py Eff Sys Obs azure_auth_py.

(** C5. [detect_auth_method] returns a method on every environment and
    follows the precedence OIDC, then service principal (either secret
    variable), then managed identity (either endpoint variable), then CLI;
    a variable counts when it is set to a non-empty value. *)
Theorem C5_detect_auth_method_precedence (os : OS) (self : AzureAuthenticator.t) :
  (is_set os "ACTIONS_ID_TOKEN_REQUEST_TOKEN" = true ->
     detect_auth_method os self = OIDC) /\
  (is_set os "ACTIONS_ID_TOKEN_REQUEST_TOKEN" = false ->
   is_set os "AZURE_CLIENT_SECRET" = true \/ is_set os "ARM_CLIENT_SECRET" = true ->
     detect_auth_method os self = SERVICE_PRINCIPAL) /\
  (is_set os "ACTIONS_ID_TOKEN_REQUEST_TOKEN" = false ->
   is_set os "AZURE_CLIENT_SECRET" = false ->
   is_set os "ARM_CLIENT_SECRET" = false ->
   is_set os "MSI_ENDPOINT" = true \/ is_set os "IDENTITY_ENDPOINT" = true ->
     detect_auth_method os self = MANAGED_IDENTITY) /\
  (is_set os "ACTIONS_ID_TOKEN_REQUEST_TOKEN" = false ->
   is_set os "AZURE_CLIENT_SECRET" = false ->
   is_set os "ARM_CLIENT_SECRET" = false ->
   is_set os "MSI_ENDPOINT" = false ->
   is_set os "IDENTITY_ENDPOINT" = false ->
     detect_auth_method os self = CLI) /\
  (is_set os "ACTIONS_ID_TOKEN_REQUEST_TOKEN" = true ->
   is_set os "AZURE_CLIENT_SECRET" = true \/ is_set os "ARM_CLIENT_SECRET" = true ->
     detect_auth_method os self = OIDC) /\
  (is_set os "ACTIONS_ID_TOKEN_REQUEST_TOKEN" = false ->
   is_set os "AZURE_CLIENT_SECRET" = true \/ is_set os "ARM_CLIENT_SECRET" = true ->
   is_set os "MSI_ENDPOINT" = true \/ is_set os "IDENTITY_ENDPOINT" = true ->
     detect_auth_method os self = SERVICE_PRINCIPAL).
Proof.
  unfold is_set, detect_auth_method, or_else.
  destruct (truthy (env_get os "ACTIONS_ID_TOKEN_REQUEST_TOKEN"));
    destruct (truthy (env_get os "AZURE_CLIENT_SECRET")) eqn:Ha;
    destruct (truthy (env_get os "ARM_CLIENT_SECRET")) eqn:Hb;
    destruct (truthy (env_get os "MSI_ENDPOINT")) eqn:Hc;
    destruct (truthy (env_get os "IDENTITY_ENDPOINT")) eqn:Hd;
    rewrite ?Ha, ?Hb, ?Hc, ?Hd;
    repeat split; intros; try reflexivity; try discriminate;
    repeat match goal with H : _ \/ _ |- _ => destruct H end; discriminate.
Qed.

Lemma C5_witness :
  is_set (Examples.host Examples.env_sp_and_msi None 0) "ACTIONS_ID_TOKEN_REQUEST_TOKEN" = false /\
  is_set (Examples.host Examples.env_sp_and_msi None 0) "ARM_CLIENT_SECRET" = true /\
  is_set (Examples.host Examples.env_sp_and_msi None 0) "MSI_ENDPOINT" = true /\
  detect_auth_method (Examples.host Examples.env_sp_and_msi None 0) Examples.authenticator
    = SERVICE_PRINCIPAL.
Proof.
  split; [reflexivity|]. split; [reflexivity|]. split; [reflexivity|].
  apply (C5_detect_auth_method_precedence
           (Examples.host Examples.env_sp_and_msi None 0) Examples.authenticator).
  - reflexivity.
  - right. reflexivity.
  - left. reflexivity.
Defined.

(** C8. Without a non-empty value under either secret variable,
    [authenticate_service_principal] raises a [ValueError] whose message
    contains both variable names; with one, it returns credentials whose
    secret is that value ([AZURE_CLIENT_SECRET] first) and whose method is
    [SERVICE_PRINCIPAL]. *)
Theorem C8_authenticate_service_principal (os : OS) (self : AzureAuthenticator.t) :
  (is_set os "AZURE_CLIENT_SECRET" = false ->
   is_set os "ARM_CLIENT_SECRET" = false ->
   exists msg,
     authenticate_service_principal os self = Raise (ValueError msg) /\
     contains "AZURE_CLIENT_SECRET" msg = true /\
     contains "ARM_CLIENT_SECRET" msg = true) /\
  (forall v,
     env_get os "AZURE_CLIENT_SECRET" = Some v -> v <> "" ->
     exists c,
       authenticate_service_principal os self = Ok c /\
       AzureCredentials.client_secret c = v /\
       AzureCredentials.auth_method c = SERVICE_PRINCIPAL) /\
  (forall v,
     is_set os "AZURE_CLIENT_SECRET" = false ->
     env_get os "ARM_CLIENT_SECRET" = Some v -> v <> "" ->
     exists c,
       authenticate_service_principal os self = Ok c /\
       AzureCredentials.client_secret c = v /\
       AzureCredentials.auth_method c = SERVICE_PRINCIPAL).
Proof.
  unfold is_set, authenticate_service_principal.
  split; [|split].
  - intros Ha Hb. rewrite (or_else_right _ _ Ha), Hb. simpl.
    eexists. split; [reflexivity|]. split; vm_compute; reflexivity.
  - intros v Hv Hne.
    rewrite or_else_left by (rewrite Hv; now apply truthy_Some).
    rewrite Hv, (truthy_Some v Hne). simpl.
    eexists. split; [reflexivity|]. split; reflexivity.
  - intros v Ha Hv Hne.
    rewrite (or_else_right _ _ Ha), Hv, (truthy_Some v Hne). simpl.
    eexists. split; [reflexivity|]. split; reflexivity.
Qed.

Lemma C8_witness :
  exists c,
    authenticate_service_principal
      (Examples.host Examples.env_sp_and_msi None 0) Examples.authenticator = Ok c /\
    AzureCredentials.client_secret c = "s3cret" /\
    AzureCredentials.auth_method c = SERVICE_PRINCIPAL.
Proof.
  apply (C8_authenticate_service_principal
           (Examples.host Examples.env_sp_and_msi None 0) Examples.authenticator).
  - reflexivity.
  - reflexivity.
  - discriminate.
Defined.

(** C9. The environment built from credentials always holds the
    subscription and tenant identifiers; it holds the client identifier,
    the secret and the token exactly when the field is non-empty, with the
    field as value; the OIDC flag comes with the token; an empty secret
    leaves [ARM_CLIENT_SECRET] out. *)
Theorem C9_set_terraform_env_vars (c : AzureCredentials.t) :
  let m := set_terraform_env_vars c in
  m !! "ARM_SUBSCRIPTION_ID" = Some (AzureCredentials.subscription_id c) /\
  m !! "ARM_TENANT_ID" = Some (AzureCredentials.tenant_id c) /\
  (is_Some (m !! "ARM_CLIENT_ID") <-> AzureCredentials.client_id c <> "") /\
  (AzureCredentials.client_id c <> "" ->
     m !! "ARM_CLIENT_ID" = Some (AzureCredentials.client_id c)) /\
  (is_Some (m !! "ARM_CLIENT_SECRET") <-> AzureCredentials.client_secret c <> "") /\
  (AzureCredentials.client_secret c <> "" ->
     m !! "ARM_CLIENT_SECRET" = Some (AzureCredentials.client_secret c)) /\
  (AzureCredentials.token c <> "" ->
     m !! "ARM_OIDC_TOKEN" = Some (AzureCredentials.token c) /\
     m !! "ARM_USE_OIDC" = Some "true") /\
  (AzureCredentials.token c = "" ->
     m !! "ARM_OIDC_TOKEN" = None /\ m !! "ARM_USE_OIDC" = None) /\
  (AzureCredentials.client_secret c = "" -> m !! "ARM_CLIENT_SECRET" = None).
Proof.
  destruct c as [sub ten cid sec tok meth]. unfold set_terraform_env_vars. simpl.
  destruct cid, sec, tok; simpl; simplify_map_eq;
    repeat split; intros; simplify_map_eq; try done;
    try (match goal with H : is_Some None |- _ => destruct H; discriminate end);
    try (eexists; reflexivity).
Qed.

Lemma C9_witness :
  set_terraform_env_vars Examples.oidc_credentials !! "ARM_OIDC_TOKEN" = Some "tok" /\
  set_terraform_env_vars Examples.oidc_credentials !! "ARM_USE_OIDC" = Some "true".
Proof.
  apply (C9_set_terraform_env_vars Examples.oidc_credentials). discriminate.
Defined.

End AuthFacts.

Section BuilderFacts.
Import Py Eff Sys Obs terraform_runner_py.

Lemma append_each_map {A} (g : A -> string) (l : list A) (cmd : list string) :
  append_each g l cmd = cmd ++ List.map g l.
Proof.
  unfold append_each. revert cmd.
  induction l as [|x l IH]; intros cmd; simpl.
  - now rewrite app_nil_r.
  - rewrite IH, <- app_assoc. reflexivity.
Qed.

Lemma layout_files_before_overrides
    (pre post : list string) (files : list string) (overrides : dict) :
  files_before_overrides
    (pre ++ List.map var_file_flag files ++ List.map var_flag overrides ++ post)
    files overrides.
Proof.
  intros i j f kv Hf Hkv.
  exists (length pre + i)%nat, (length pre + (length files + j))%nat.
  assert (Hi : (i < length files)%nat) by (eapply lookup_lt_Some; eauto).
  split; [lia|]. split.
  - rewrite lookup_app_r by lia.
    replace (length pre + i - length pre)%nat with i by lia.
    rewrite lookup_app_l by (rewrite length_map; lia).
    rewrite list_lookup_fmap, Hf. reflexivity.
  - rewrite lookup_app_r by lia.
    replace (length pre + (length files + j) - length pre)%nat
      with (length (List.map var_file_flag files) + j)%nat
      by (rewrite length_map; lia).
    rewrite lookup_app_r by lia.
    replace (length (List.map var_file_flag files) + j
             - length (List.map var_file_flag files))%nat with j by lia.
    assert (Hj : (j < length overrides)%nat) by (eapply lookup_lt_Some; eauto).
    rewrite lookup_app_l by (rewrite length_map; lia).
    rewrite list_lookup_fmap, Hkv. reflexivity.
Qed.

Lemma build_command_total (self : TerraformRunner) (c : config_py.TerraformCommand) :
  build_command self c =
    Ok match c with
       | config_py.INIT => build_init_command self
       | config_py.VALIDATE => build_validate_command self
       | config_py.PLAN => build_plan_command self None
       | config_py.APPLY => build_apply_command self None
       | config_py.DESTROY => build_destroy_command self
       end.
Proof. destruct c; reflexivity. Qed.

Lemma build_command_second (self : TerraformRunner) (c : config_py.TerraformCommand)
    (cmd : list string) :
  build_command self c = Ok cmd -> cmd !! 1%nat = Some (config_py.value c).
Proof.
  rewrite build_command_total. intros [= <-].
  destruct c; simpl;
    unfold build_init_command, build_validate_command, build_plan_command,
      build_apply_command, build_destroy_command; simpl;
    rewrite ?append_each_map; try reflexivity.
  destruct (is_empty _); reflexivity.
Qed.

Lemma build_command_not_workspace (self : TerraformRunner)
    (c : config_py.TerraformCommand) (cmd : list string) :
  build_command self c = Ok cmd -> cmd <> build_workspace_command self.
Proof.
  intros H Heq. apply build_command_second in H. rewrite Heq in H.
  destruct c; discriminate H.
Qed.

(** C6. With a non-empty plan file, [build_apply_command] yields the four
    fixed tokens and the plan file, whatever the variable files and
    overrides of the configuration; without one, it yields the four tokens,
    then a flag for every variable file, then a flag for every override. *)
Theorem C6_build_apply_command (self : TerraformRunner) :
  (forall p, p <> "" ->
     build_apply_command self (Some p) =
       [terraform_path self; "apply"; "-input=false"; "-auto-approve"; p]) /\
  (forall plan_file, truthy plan_file = false ->
     build_apply_command self plan_file =
       [terraform_path self; "apply"; "-input=false"; "-auto-approve"]
       ++ List.map var_file_flag (config_py.tfvars_files (config self))
       ++ List.map var_flag (config_py.var_overrides (config self))) /\
  (forall plan_file f, truthy plan_file = false ->
     f ∈ config_py.tfvars_files (config self) ->
     var_file_flag f ∈ build_apply_command self plan_file) /\
  (forall plan_file kv, truthy plan_file = false ->
     kv ∈ config_py.var_overrides (config self) ->
     var_flag kv ∈ build_apply_command self plan_file).
Proof.
  assert (Hno : forall plan_file, truthy plan_file = false ->
     build_apply_command self plan_file =
       [terraform_path self; "apply"; "-input=false"; "-auto-approve"]
       ++ List.map var_file_flag (config_py.tfvars_files (config self))
       ++ List.map var_flag (config_py.var_overrides (config self))).
  { intros plan_file Hp. unfold build_apply_command. rewrite Hp.
    rewrite !append_each_map, <- app_assoc. reflexivity. }
  split; [|split; [exact Hno|split]].
  - intros p Hp. unfold build_apply_command.
    rewrite (truthy_Some p Hp). reflexivity.
  - intros plan_file f Hp Hf. rewrite (Hno _ Hp).
    apply elem_of_app. right. apply elem_of_app. left.
    apply (list_elem_of_fmap_2 var_file_flag). exact Hf.
  - intros plan_file kv Hp Hkv. rewrite (Hno _ Hp).
    apply elem_of_app. right. apply elem_of_app. right.
    apply (list_elem_of_fmap_2 var_flag). exact Hkv.
Qed.

Lemma C6_witness :
  build_apply_command (Examples.runner "default" true) (Some "plan.tfplan") =
    ["/usr/bin/terraform"; "apply"; "-input=false"; "-auto-approve"; "plan.tfplan"].
Proof.
  apply (proj1 (C6_build_apply_command (Examples.runner "default" true))).
  discriminate.
Defined.

(** C7. [build_plan_command], [build_apply_command] without a plan file
    and [build_destroy_command] put the tool path first, the sub-command
    second, [-input=false] third, then (after [-auto-approve] for apply and
    destroy) one flag per variable file in the order of the configuration,
    then one flag per override, then the [-out] flag of plan if any; so
    every variable-file flag precedes every override flag. *)
Theorem C7_argument_order (self : TerraformRunner) (out_file : option string) :
  build_plan_command self out_file =
    [terraform_path self; "plan"; "-input=false"]
    ++ List.map var_file_flag (config_py.tfvars_files (config self))
    ++ List.map var_flag (config_py.var_overrides (config self))
    ++ (if truthy out_file then ["-out=" +:+ default "" out_file] else []) /\
  build_apply_command self None =
    [terraform_path self; "apply"; "-input=false"; "-auto-approve"]
    ++ List.map var_file_flag (config_py.tfvars_files (config self))
    ++ List.map var_flag (config_py.var_overrides (config self)) /\
  build_destroy_command self =
    [terraform_path self; "destroy"; "-input=false"; "-auto-approve"]
    ++ List.map var_file_flag (config_py.tfvars_files (config self))
    ++ List.map var_flag (config_py.var_overrides (config self)) /\
  files_before_overrides (build_plan_command self out_file)
    (config_py.tfvars_files (config self)) (config_py.var_overrides (config self)) /\
  files_before_overrides (build_apply_command self None)
    (config_py.tfvars_files (config self)) (config_py.var_overrides (config self)) /\
  files_before_overrides (build_destroy_command self)
    (config_py.tfvars_files (config self)) (config_py.var_overrides (config self)).
Proof.
  assert (Hp : build_plan_command self out_file =
    [terraform_path self; "plan"; "-input=false"]
    ++ List.map var_file_flag (config_py.tfvars_files (config self))
    ++ List.map var_flag (config_py.var_overrides (config self))
    ++ (if truthy out_file then ["-out=" +:+ default "" out_file] else [])).
  { unfold build_plan_command. rewrite !append_each_map.
    destruct (truthy out_file); rewrite <- ?app_assoc, ?app_nil_r; reflexivity. }
  assert (Ha : build_apply_command self None =
    [terraform_path self; "apply"; "-input=false"; "-auto-approve"]
    ++ List.map var_file_flag (config_py.tfvars_files (config self))
    ++ List.map var_flag (config_py.var_overrides (config self))).
  { unfold build_apply_command. simpl truthy. cbv iota.
    rewrite !append_each_map, <- !app_assoc. reflexivity. }
  assert (Hd : build_destroy_command self =
    [terraform_path self; "destroy"; "-input=false"; "-auto-approve"]
    ++ List.map var_file_flag (config_py.tfvars_files (config self))
    ++ List.map var_flag (config_py.var_overrides (config self))).
  { unfold build_destroy_command.
    rewrite !append_each_map, <- !app_assoc. reflexivity. }
  split; [exact Hp|]. split; [exact Ha|]. split; [exact Hd|].
  split; [|split].
  - rewrite Hp. apply layout_files_before_overrides.
  - rewrite Ha.
    pose proof (layout_files_before_overrides
                  [terraform_path self; "apply"; "-input=false"; "-auto-approve"] []
                  (config_py.tfvars_files (config self))
                  (config_py.var_overrides (config self))) as H.
    now rewrite app_nil_r in H.
  - rewrite Hd.
    pose proof (layout_files_before_overrides
                  [terraform_path self; "destroy"; "-input=false"; "-auto-approve"] []
                  (config_py.tfvars_files (config self))
                  (config_py.var_overrides (config self))) as H.
    now rewrite app_nil_r in H.
Qed.

End BuilderFacts.

Section RunFacts.
Import Py Eff Sys Obs terraform_runner_py.

Lemma events_of_app {A} (c : M A) (s : state) (evs : list event) :
  trace (snd (c s)) = trace s ++ evs -> events_of c s = evs.
Proof. unfold events_of. intros ->. apply drop_app_length. Qed.

Lemma run_command_dry (os : OS) (self : TerraformRunner) (cmd : list string) (s : state) :
  dry_run self = true ->
  run_command os self cmd s =
    (Ok {| return_code := 0;
           stdout := "[DRY RUN] Would execute: " +:+ join " " cmd;
           stderr := "";
           command := cmd |},
     {| cwd := cwd s; trace := trace s ++ [Invoke cmd] |}).
Proof. intros H. unfold run_command, bind, emit, ret. simpl. rewrite H. reflexivity. Qed.

Lemma run_command_trace (os : OS) (self : TerraformRunner) (cmd : list string) (s : state) :
  exists evs,
    trace (snd (run_command os self cmd s)) = trace s ++ Invoke cmd :: evs /\
    Forall (fun ev => exists d, ev = Chdir d \/ ev = Spawn d cmd None) evs.
Proof.
  unfold run_command, bind, emit, ret, try_finally, os_chdir, os_subprocess_run,
    getcwd, setcwd, lift, raise, bind, emit. simpl.
  destruct (dry_run self); simpl.
  - exists []. split; [reflexivity|constructor].
  - destruct (chdir os (cwd s) _) as [d1|e1]; simpl.
    + destruct (subprocess_run os d1 cmd None) as [r|e2]; simpl;
        destruct (chdir os d1 (cwd s)) as [d2|e3]; simpl;
        rewrite <- ?app_assoc; simpl;
        eexists; (split; [reflexivity|]);
        repeat constructor; eauto.
    + destruct (chdir os (cwd s) (cwd s)) as [d2|e3]; simpl;
        rewrite <- ?app_assoc; simpl;
        eexists; (split; [reflexivity|]);
        repeat constructor; eauto.
Qed.

Lemma invoked_quiet (cmd : list string) (evs : list event) :
  Forall (fun ev => exists d, ev = Chdir d \/ ev = Spawn d cmd None) evs ->
  invoked evs = [].
Proof.
  induction 1 as [|ev evs [d [-> | ->]] _ IH]; simpl; auto.
Qed.

Lemma spawn_envs_quiet (cmd : list string) (evs : list event) :
  Forall (fun ev => exists d, ev = Chdir d \/ ev = Spawn d cmd None) evs ->
  Forall (fun env => env = None) (spawn_envs evs).
Proof.
  induction 1 as [|ev evs [d [-> | ->]] _ IH]; simpl; auto.
Qed.

Lemma invoked_app (a b : list event) : invoked (a ++ b) = invoked a ++ invoked b.
Proof. apply omap_app. Qed.

Lemma spawn_envs_app (a b : list event) :
  spawn_envs (a ++ b) = spawn_envs a ++ spawn_envs b.
Proof. apply omap_app. Qed.

Lemma run_command_events (os : OS) (self : TerraformRunner) (cmd : list string)
    (s : state) (r : outcome CommandResult) (s' : state) :
  run_command os self cmd s = (r, s') ->
  exists evs,
    trace s' = trace s ++ evs /\
    invoked evs = [cmd] /\
    Forall (fun env => env = None) (spawn_envs evs).
Proof.
  intros H. destruct (run_command_trace os self cmd s) as (evs & Ht & Hq).
  rewrite H in Ht. simpl in Ht.
  exists (Invoke cmd :: evs). split; [exact Ht|]. split.
  - simpl. now rewrite (invoked_quiet cmd evs Hq).
  - simpl. now apply (spawn_envs_quiet cmd).
Qed.

(** The workspace test of [run]. *)
Lemma selects_workspace (ws : string) :
  (negb (is_empty ws) && negb (String.eqb ws "default"))%bool = true
  <-> ws <> "" /\ ws <> "default".
Proof.
  rewrite andb_true_iff, !negb_true_iff, is_empty_false.
  split; intros [H1 H2]; (split; [exact H1|]).
  - intros ->. discriminate.
  - now apply String.eqb_neq.
Qed.

(** What [run] adds to the trace: the workspace command first when the
    workspace is selected, the main command after it unless [run] has
    returned or raised; no child process is given an environment. *)
Lemma run_events (os : OS) (self : TerraformRunner) (s : state) :
  exists evs main_cmd,
    trace (snd (run os self s)) = trace s ++ evs /\
    build_command self (config_py.command (config self)) = Ok main_cmd /\
    Forall (fun env => env = None) (spawn_envs evs) /\
    (if (negb (is_empty (config_py.workspace (config self))) &&
         negb (String.eqb (config_py.workspace (config self)) "default"))%bool
     then invoked evs = [build_workspace_command self] \/
          invoked evs = [build_workspace_command self; main_cmd]
     else invoked evs = [main_cmd]).
Proof.
  pose proof (build_command_total self (config_py.command (config self))) as Hb.
  unfold run, bind.
  destruct (negb _ && negb _)%bool.
  - destruct (run_command os self (build_workspace_command self) s)
      as [[wr|e] s1] eqn:E1;
      destruct (run_command_events _ _ _ _ _ _ E1) as (ev1 & Ht1 & Hi1 & He1).
    + destruct (negb (return_code wr =? 0)); unfold ret, lift; simpl.
      * eexists _, _.
        split; [exact Ht1|]. split; [exact Hb|]. split; [exact He1|]. now left.
      * rewrite Hb.
        destruct (run_command os self _ s1) as [r2 s2] eqn:E2.
        destruct (run_command_events _ _ _ _ _ _ E2) as (ev2 & Ht2 & Hi2 & He2).
        simpl. rewrite Ht2, Ht1, <- app_assoc. eexists _, _.
        split; [reflexivity|]. split; [reflexivity|]. split.
        -- rewrite spawn_envs_app. now apply Forall_app.
        -- right. now rewrite invoked_app, Hi1, Hi2.
    + simpl. eexists _, _.
      split; [exact Ht1|]. split; [exact Hb|]. split; [exact He1|]. now left.
  - unfold ret, lift. rewrite Hb.
    destruct (run_command os self _ s) as [r2 s2] eqn:E2.
    destruct (run_command_events _ _ _ _ _ _ E2) as (ev2 & Ht2 & Hi2 & He2).
    simpl. eexists _, _.
    split; [exact Ht2|]. split; [reflexivity|]. split; [exact He2|exact Hi2].
Qed.

(** A dry run returns a result with return code 0. *)
Lemma run_dry (os : OS) (self : TerraformRunner) (s : state) :
  dry_run self = true ->
  exists result s', run os self s = (Ok result, s') /\ return_code result = 0.
Proof.
  intros Hd. unfold run, bind.
  destruct (negb _ && negb _)%bool.
  - rewrite (run_command_dry os self _ s Hd). cbn [return_code Z.eqb negb].
    unfold ret, lift. rewrite build_command_total, (run_command_dry os self _ _ Hd).
    eauto.
  - unfold ret, lift. rewrite build_command_total, (run_command_dry os self _ _ Hd).
    eauto.
Qed.

(** C3. When the workspace is selected and the workspace command comes
    back with a non-zero exit code, [run] returns that result in the state
    the workspace command left: the workspace command is the only command
    handed to [run_command], and the command of the configured operation
    is not among them. *)
Theorem C3_workspace_failure_aborts (os : OS) (self : TerraformRunner)
    (s s' : state) (workspace_result : CommandResult) :
  config_py.workspace (config self) <> "" ->
  config_py.workspace (config self) <> "default" ->
  run_command os self (build_workspace_command self) s = (Ok workspace_result, s') ->
  return_code workspace_result <> 0 ->
  run os self s = (Ok workspace_result, s') /\
  invoked (events_of (run os self) s) = [build_workspace_command self] /\
  (forall cmd, build_command self (config_py.command (config self)) = Ok cmd ->
     cmd ∉ invoked (events_of (run os self) s)).
Proof.
  intros Hne Hnd Hws Hrc.
  assert (Hrun : run os self s = (Ok workspace_result, s')).
  { unfold run, bind.
    rewrite (proj2 (selects_workspace _) (conj Hne Hnd)), Hws.
    apply Z.eqb_neq in Hrc. rewrite Hrc. reflexivity. }
  destruct (run_command_events _ _ _ _ _ _ Hws) as (evs & Ht & Hi & _).
  assert (He : events_of (run os self) s = evs).
  { apply events_of_app. rewrite Hrun. exact Ht. }
  split; [exact Hrun|]. rewrite He, Hi. split; [reflexivity|].
  intros cmd Hcmd Hin. apply list_elem_of_singleton in Hin.
  now apply (build_command_not_workspace self _ cmd Hcmd).
Qed.

Lemma C3_witness :
  run (Examples.host ∅ None 3) (Examples.runner "staging" false) Examples.start =
    (Ok {| return_code := 3; stdout := ""; stderr := "workspace error";
           command := ["/usr/bin/terraform"; "workspace"; "select";
                       "-or-create=true"; "staging"] |},
     {| cwd := "/home/runner/work";
        trace := [Invoke ["/usr/bin/terraform"; "workspace"; "select";
                          "-or-create=true"; "staging"];
                  Chdir ".";
                  Spawn "." ["/usr/bin/terraform"; "workspace"; "select";
                             "-or-create=true"; "staging"] None;
                  Chdir "/home/runner/work"] |}).
Proof.
  apply (C3_workspace_failure_aborts
           (Examples.host ∅ None 3) (Examples.runner "staging" false)).
  - discriminate.
  - discriminate.
  - reflexivity.
  - discriminate.
Defined.

(** C4 as stated fails: a configuration with the empty workspace name
    loads from the environment and validates, its workspace differs from
    "default", and [run] issues no workspace command. *)
Lemma C4_counterexample :
  config_py.load_config_from_env (Examples.host Examples.env_empty_workspace None 0)
    = Ok Examples.cfg_empty_workspace /\
  (forall u, config_py.validate u Examples.cfg_empty_workspace = []) /\
  config_py.workspace Examples.cfg_empty_workspace <> "default" /\
  build_workspace_command Examples.runner_empty_workspace
    ∉ invoked (events_of (run (Examples.host Examples.env_empty_workspace None 0)
                              Examples.runner_empty_workspace) Examples.start).
Proof.
  split; [reflexivity|]. split; [intros u; reflexivity|]. split; [discriminate|].
  vm_compute. intros H. apply list_elem_of_singleton in H. discriminate.
Qed.

(** C4, amended. [run] hands the workspace command to [run_command] if and
    only if the workspace name is non-empty and differs from "default";
    when it does, that command comes first, and it is the select-or-create
    command naming the configured workspace. *)
Theorem C4_workspace_command_issued (os : OS) (self : TerraformRunner) (s : state) :
  (build_workspace_command self ∈ invoked (events_of (run os self) s)
   <-> config_py.workspace (config self) <> "" /\
       config_py.workspace (config self) <> "default") /\
  (build_workspace_command self ∈ invoked (events_of (run os self) s) ->
   head (invoked (events_of (run os self) s)) = Some (build_workspace_command self)) /\
  build_workspace_command self =
    [terraform_path self; "workspace"; "select"; "-or-create=true";
     config_py.workspace (config self)].
Proof.
  destruct (run_events os self s) as (evs & main_cmd & Ht & Hb & _ & Hi).
  rewrite (events_of_app _ _ _ Ht).
  pose proof (build_command_not_workspace self _ _ Hb) as Hneq.
  rewrite <- selects_workspace.
  destruct (negb _ && negb _)%bool.
  - split; [|split; [|reflexivity]].
    + split; [reflexivity|]. intros _.
      destruct Hi as [-> | ->]; apply list_elem_of_here.
    + intros _. destruct Hi as [-> | ->]; reflexivity.
  - rewrite Hi. split; [|split; [|reflexivity]].
    + split; [|discriminate]. intros H. apply list_elem_of_singleton in H. congruence.
    + intros H. apply list_elem_of_singleton in H. congruence.
Qed.

Lemma C4_witness :
  build_workspace_command (Examples.runner "staging" true)
    ∈ invoked (events_of (run (Examples.host ∅ None 0) (Examples.runner "staging" true))
                 Examples.start).
Proof.
  apply (proj1 (C4_workspace_command_issued
                  (Examples.host ∅ None 0) (Examples.runner "staging" true)
                  Examples.start)).
  split; discriminate.
Defined.

End RunFacts.

Section MainFacts.
Import Py Eff Sys Obs terraform_runner_py main_py.

Lemma state_eta (s : state) : {| cwd := cwd s; trace := trace s |} = s.
Proof. now destruct s. Qed.

Lemma bind_run {A B} (c : M A) (k : A -> M B) (s s' : state) (a : A) :
  c s = (Ok a, s') -> bind c k s = k a s'.
Proof. intros H. unfold bind. now rewrite H. Qed.

Lemma bind_raises {A B} (c : M A) (k : A -> M B) (s s' : state) (e : exn) :
  c s = (Raise e, s') -> bind c k s = (Raise e, s').
Proof. intros H. unfold bind. now rewrite H. Qed.

Lemma log_run (lg : Logging.Logger) (l : Z) (m : string) (x : bool) (s : state) :
  Logging.log lg l m x s =
    (Ok tt, {| cwd := cwd s; trace := trace s ++ logged lg l m x |}).
Proof.
  unfold Logging.log, logged. destruct (_ <=? _); unfold emit, ret; [reflexivity|].
  rewrite app_nil_r. now destruct s.
Qed.

Lemma setup_logging_state (os : OS) (level : option string) (s : state) :
  logging_py.setup_logging os level s =
    (fst (logging_py.setup_logging os level s), s).
Proof.
  unfold logging_py.setup_logging, bind, lift, ret.
  destruct (Logging.check_level _ _); reflexivity.
Qed.

Lemma setup_logging_pure (os : OS) (level : option string) (s s' : state) :
  fst (logging_py.setup_logging os level s) =
  fst (logging_py.setup_logging os level s').
Proof.
  unfold logging_py.setup_logging, bind, lift, ret.
  destruct (Logging.check_level _ _); reflexivity.
Qed.

(** The loop over the validation errors. *)
Lemma print_errors_run (lg : Logging.Logger) (errors : list string) (acc : M unit)
    (s s1 : state) :
  acc s = (Ok tt, s1) ->
  fold_left
    (fun acc error =>
       do* acc in
       do* logging_py.github_error error in
       Logging.error lg ("Configuration error: " +:+ error))
    errors acc s =
    (Ok tt, {| cwd := cwd s1; trace := trace s1 ++ flat_map (error_report lg) errors |}).
Proof.
  revert acc s1. induction errors as [|e errors IH]; intros acc s1 H; simpl.
  - rewrite app_nil_r, H. now destruct s1.
  - erewrite IH.
    2:{ erewrite bind_run by exact H.
        erewrite bind_run by reflexivity.
        unfold Logging.error. apply log_run. }
    simpl. unfold error_report at 2. simpl.
    now rewrite <- !app_assoc.
Qed.

Lemma new_found (os : OS) (c : config_py.ActionConfig) (dry : bool) (s : state) :
  truthy (which os "terraform") = true ->
  new os c None dry s =
    (Ok {| config := c;
           terraform_path := default "" (which os "terraform");
           dry_run := dry |}, s).
Proof. intros H. unfold new, _find_terraform, bind, ret. simpl. now rewrite H. Qed.


(** The outer [try] of [main], case by case. *)
Lemma guarded_load_raises (os : OS) (lg : Logging.Logger) (e : exn) (s : state) :
  config_py.load_config_from_env os = Raise e ->
  guarded os lg s =
    (Ok 1,
     {| cwd := cwd s;
        trace := trace s ++
                 logged lg Logging.DEBUG "Loading configuration from environment" false ++
                 handled lg e |}).
Proof.
  intros Hl. unfold guarded, try_except, body.
  erewrite bind_run by apply log_run.
  erewrite bind_raises by (unfold lift; rewrite Hl; reflexivity).
  cbn match. unfold handled. destruct (is_ValueError e).
  - erewrite bind_run by reflexivity.
    erewrite bind_run by apply log_run.
    unfold ret. simpl. now rewrite <- !app_assoc.
  - erewrite bind_run by reflexivity.
    erewrite bind_run by apply log_run.
    unfold ret. simpl. now rewrite <- !app_assoc.
Qed.

Lemma guarded_invalid (os : OS) (lg : Logging.Logger) (c : config_py.ActionConfig)
    (s : state) :
  config_py.load_config_from_env os = Ok c ->
  config_py.validate (unicode os) c <> [] ->
  guarded os lg s =
    (Ok 1,
     {| cwd := cwd s;
        trace := trace s ++
                 logged lg Logging.DEBUG "Loading configuration from environment" false ++
                 flat_map (error_report lg) (config_py.validate (unicode os) c) |}).
Proof.
  intros Hl Hv. unfold guarded, try_except, body.
  erewrite bind_run by apply log_run.
  erewrite bind_run by (unfold lift; rewrite Hl; reflexivity).
  destruct (config_py.validate (unicode os) c) as [|e errors] eqn:E; [congruence|].
  cbn [length Nat.eqb negb].
  erewrite bind_run by (apply print_errors_run; reflexivity).
  unfold ret. simpl. now rewrite <- !app_assoc.
Qed.

Lemma guarded_valid (os : OS) (lg : Logging.Logger) (c : config_py.ActionConfig)
    (s : state) :
  config_py.load_config_from_env os = Ok c ->
  config_py.validate (unicode os) c = [] ->
  guarded os lg s =
    (Ok 1,
     {| cwd := cwd s;
        trace := trace s ++
                 logged lg Logging.DEBUG "Loading configuration from environment" false ++
                 summary (unicode os) lg c ++
                 handled lg no_avm_version |}).
Proof.
  intros Hl Hv. unfold guarded, try_except, body.
  erewrite bind_run by apply log_run.
  erewrite bind_run by (unfold lift; rewrite Hl; reflexivity).
  rewrite Hv. cbn [length Nat.eqb negb].
  erewrite bind_run by apply log_run.
  erewrite bind_run by apply log_run.
  erewrite bind_run by apply log_run.
  erewrite bind_raises by reflexivity.
  cbn match. cbn [is_ValueError].
  erewrite bind_run by reflexivity.
  erewrite bind_run by apply log_run.
  unfold ret, summary, handled, no_avm_version. simpl. now rewrite <- !app_assoc.
Qed.

Lemma main_unfold (os : OS) (lg : Logging.Logger) (s : state) :
  fst (logging_py.setup_logging os None s) = Ok lg ->
  main os s =
    guarded os lg
      {| cwd := cwd s;
         trace := trace s ++ logged lg Logging.INFO "Starting AVM Action" false |}.
Proof.
  intros H. unfold main.
  erewrite bind_run by (rewrite setup_logging_state, H; reflexivity).
  erewrite bind_run by apply log_run.
  reflexivity.
Qed.

Lemma main_logging_raises (os : OS) (e : exn) (s : state) :
  fst (logging_py.setup_logging os None s) = Raise e ->
  main os s = (Raise e, s).
Proof.
  intros H. unfold main.
  erewrite bind_raises by (rewrite setup_logging_state, H; reflexivity).
  reflexivity.
Qed.

Lemma main_load_raises (os : OS) (lg : Logging.Logger) (e : exn) (s : state) :
  fst (logging_py.setup_logging os None s) = Ok lg ->
  config_py.load_config_from_env os = Raise e ->
  main os s =
    (Ok 1, {| cwd := cwd s; trace := trace s ++ preamble lg ++ handled lg e |}).
Proof.
  intros H Hl. rewrite (main_unfold os lg s H), (guarded_load_raises os lg e _ Hl).
  unfold preamble. simpl. now rewrite <- !app_assoc.
Qed.

Lemma main_invalid (os : OS) (lg : Logging.Logger) (c : config_py.ActionConfig)
    (s : state) :
  fst (logging_py.setup_logging os None s) = Ok lg ->
  config_py.load_config_from_env os = Ok c ->
  config_py.validate (unicode os) c <> [] ->
  main os s =
    (Ok 1,
     {| cwd := cwd s;
        trace := trace s ++ preamble lg ++
                 flat_map (error_report lg) (config_py.validate (unicode os) c) |}).
Proof.
  intros H Hl Hv. rewrite (main_unfold os lg s H), (guarded_invalid os lg c _ Hl Hv).
  unfold preamble. simpl. now rewrite <- !app_assoc.
Qed.

Lemma main_valid (os : OS) (lg : Logging.Logger) (c : config_py.ActionConfig)
    (s : state) :
  fst (logging_py.setup_logging os None s) = Ok lg ->
  config_py.load_config_from_env os = Ok c ->
  config_py.validate (unicode os) c = [] ->
  main os s =
    (Ok 1,
     {| cwd := cwd s;
        trace := trace s ++ preamble lg ++ summary (unicode os) lg c ++
                 handled lg no_avm_version |}).
Proof.
  intros H Hl Hv. rewrite (main_unfold os lg s H), (guarded_valid os lg c _ Hl Hv).
  unfold preamble. simpl. now rewrite <- !app_assoc.
Qed.

















Lemma create_runner_found (os : OS) (lg : Logging.Logger) (c : config_py.ActionConfig)
    (s : state) :
  truthy (which os "terraform") = true ->
  create_runner os lg c s =
    (Ok (inr {| config := c;
                terraform_path := default "" (which os "terraform");
                dry_run := true |}), s).
Proof.
  intros E. unfold create_runner, try_except.
  erewrite bind_run by (now apply new_found). reflexivity.
Qed.






End MainFacts.

Section CredentialFacts.
Import Py Eff Sys Obs terraform_runner_py main_py.

Lemma not_credential_var (k : string) :
  bool_decide (k ∈ credential_vars) = false -> k ∉ credential_vars.
Proof. intros H. now apply bool_decide_eq_false in H. Qed.

(** The builders do not read the Azure identifiers. *)
Lemma build_command_with_azure (a : config_py.AzureConfig) (self : TerraformRunner)
    (c : config_py.TerraformCommand) :
  build_command (runner_with_azure a self) c = build_command self c.
Proof. destruct c; reflexivity. Qed.

Section Hosts.
Variable os1 : OS.
Variable os2 : OS.

Section SameAnswers.
Hypothesis same : same_answers os1 os2.

Lemma os_chdir_same (d : string) (s : state) : os_chdir os1 d s = os_chdir os2 d s.
Proof.
  destruct same as [Hc _]. unfold os_chdir, bind, getcwd. now rewrite Hc.
Qed.

Lemma os_subprocess_run_same (cmd : list string) (env : option (gmap string string))
    (s : state) :
  os_subprocess_run os1 cmd env s = os_subprocess_run os2 cmd env s.
Proof.
  destruct same as [_ Hs]. unfold os_subprocess_run, bind, getcwd, emit, lift.
  now rewrite Hs.
Qed.

Lemma run_command_same (a : config_py.AzureConfig) (self : TerraformRunner)
    (cmd : list string) (s : state) :
  run_command os1 (runner_with_azure a self) cmd s = run_command os2 self cmd s.
Proof.
  unfold run_command, bind, try_finally, getcwd, emit, ret. cbn [cwd trace].
  change (dry_run (runner_with_azure a self)) with (dry_run self).
  change (config_py.tf_directory (config (runner_with_azure a self)))
    with (config_py.tf_directory (config self)).
  destruct (dry_run self); [reflexivity|].
  rewrite os_chdir_same.
  destruct (os_chdir os2 _ _) as [[[]|e] s1].
  - rewrite os_subprocess_run_same.
    destruct (os_subprocess_run os2 cmd None s1) as [[r|e] s2];
      now rewrite os_chdir_same.
  - now rewrite os_chdir_same.
Qed.

Lemma run_same (a : config_py.AzureConfig) (self : TerraformRunner) (s : state) :
  run os1 (runner_with_azure a self) s = run os2 self s.
Proof.
  unfold run.
  change (config_py.workspace (config (runner_with_azure a self)))
    with (config_py.workspace (config self)).
  change (config_py.command (config (runner_with_azure a self)))
    with (config_py.command (config self)).
  change (build_workspace_command (runner_with_azure a self))
    with (build_workspace_command self).
  rewrite build_command_with_azure.
  unfold bind at 1 4.
  destruct (negb _ && negb _)%bool.
  - unfold bind at 1 3. rewrite run_command_same.
    destruct (run_command os2 self _ s) as [[wr|e] s1]; [|reflexivity].
    destruct (negb _); unfold ret; [reflexivity|].
    unfold bind, lift. destruct (build_command self _); [|reflexivity].
    apply run_command_same.
  - unfold ret, bind, lift. destruct (build_command self _); [|reflexivity].
    apply run_command_same.
Qed.
End SameAnswers.

(** A dry run asks nothing of the host. *)
Lemma run_command_dry_same (a : config_py.AzureConfig) (self : TerraformRunner)
    (cmd : list string) (s : state) :
  dry_run self = true ->
  run_command os1 (runner_with_azure a self) cmd s = run_command os2 self cmd s.
Proof.
  intros Hd. now rewrite !run_command_dry.
Qed.

Lemma run_dry_same (a : config_py.AzureConfig) (self : TerraformRunner) (s : state) :
  dry_run self = true ->
  run os1 (runner_with_azure a self) s = run os2 self s.
Proof.
  intros Hd. unfold run.
  change (config_py.workspace (config (runner_with_azure a self)))
    with (config_py.workspace (config self)).
  change (config_py.command (config (runner_with_azure a self)))
    with (config_py.command (config self)).
  change (build_workspace_command (runner_with_azure a self))
    with (build_workspace_command self).
  rewrite build_command_with_azure.
  unfold bind at 1 4.
  destruct (negb _ && negb _)%bool.
  - unfold bind at 1 3. rewrite run_command_dry_same by exact Hd.
    destruct (run_command os2 self _ s) as [[wr|e] s1]; [|reflexivity].
    destruct (negb _); unfold ret; [reflexivity|].
    unfold bind, lift. destruct (build_command self _); [|reflexivity].
    now apply run_command_dry_same.
  - unfold ret, bind, lift. destruct (build_command self _); [|reflexivity].
    now apply run_command_dry_same.
Qed.

Section Environments.
Hypothesis same_env :
  forall k, k ∉ credential_vars -> environ os1 !! k = environ os2 !! k.
Hypothesis same_rt : same_runtime os1 os2.

Lemma get_input_same (name default : string) :
  bool_decide (("INPUT_" +:+ upper (unicode os2) name) ∈ credential_vars) = false ->
  config_py.get_input os1 name default = config_py.get_input os2 name default.
Proof.
  intros H. destruct same_rt as (Hu & _).
  unfold config_py.get_input, env_get_default. rewrite Hu.
  now rewrite (same_env _ (not_credential_var _ H)).
Qed.

Lemma parse_var_overrides_same (value : string) :
  config_py._parse_var_overrides os1 value = config_py._parse_var_overrides os2 value.
Proof.
  destruct same_rt as (Hu & Hj & _).
  unfold config_py._parse_var_overrides. now rewrite Hu, Hj.
Qed.

Lemma load_config_same :
  exists a,
    config_py.load_config_from_env os1 =
      match config_py.load_config_from_env os2 with
      | Ok c => Ok (with_azure a c)
      | Raise e => Raise e
      end.
Proof.
  exists {| config_py.subscription_id :=
              config_py.get_input os1 "azure_subscription_id" "";
            config_py.tenant_id := config_py.get_input os1 "azure_tenant_id" "";
            config_py.client_id := config_py.get_input os1 "azure_client_id" "" |}.
  unfold config_py.load_config_from_env.
  rewrite (get_input_same "command" "plan") by reflexivity.
  rewrite (get_input_same "log_level" "INFO") by reflexivity.
  rewrite (get_input_same "tf_directory" ".") by reflexivity.
  rewrite (get_input_same "tfvars_files" "") by reflexivity.
  rewrite (get_input_same "backend_config_file" "") by reflexivity.
  rewrite (get_input_same "workspace" "default") by reflexivity.
  rewrite (get_input_same "var_overrides" "") by reflexivity.
  rewrite parse_var_overrides_same.
  destruct same_rt as (Hu & _). rewrite Hu.
  destruct (config_py._parse_command _ _) as [cmd|e]; [|reflexivity].
  cbn [obind].
  destruct (config_py._parse_var_overrides os2 _) as [ov|e]; [|reflexivity].
  cbn [obind]. reflexivity.
Qed.

Lemma setup_logging_same (s : state) :
  fst (logging_py.setup_logging os1 None s) =
  fst (logging_py.setup_logging os2 None s).
Proof.
  destruct same_rt as (Hu & _ & Hl).
  unfold logging_py.setup_logging, env_get_default, Logging.getattr_logging.
  rewrite Hu, (same_env "INPUT_LOG_LEVEL") by (now apply not_credential_var).
  rewrite Hl. reflexivity.
Qed.

Lemma main_same (s : state) : main os1 s = main os2 s.
Proof.
  pose proof (setup_logging_same s) as Hs.
  destruct load_config_same as [a Hl].
  destruct same_rt as (Hu & _).
  destruct (fst (logging_py.setup_logging os2 None s)) as [lg|e] eqn:E2.
  - destruct (config_py.load_config_from_env os2) as [c|e] eqn:El.
    + assert (Hv : config_py.validate (unicode os1) (with_azure a c) =
                   config_py.validate (unicode os2) c) by (now rewrite Hu).
      destruct (config_py.validate (unicode os2) c) as [|er errors] eqn:Ev.
      * rewrite (main_valid os1 lg _ s Hs Hl Hv), (main_valid os2 lg c s E2 El Ev).
        now rewrite Hu.
      * rewrite (main_invalid os1 lg _ s Hs Hl), (main_invalid os2 lg c s E2 El);
          rewrite ?Hv, ?Ev; try discriminate. reflexivity.
    + now rewrite (main_load_raises os1 lg e s Hs Hl),
                  (main_load_raises os2 lg e s E2 El).
  - now rewrite (main_logging_raises os1 e s Hs), (main_logging_raises os2 e s E2).
Qed.
End Environments.
End Hosts.

(** C10 as stated fails in real mode. The child process gets no
    environment of its own and inherits that of the process; on a host
    whose tool needs the client secret, the same runner builds and runs
    the workspace command and the plan command when the secret is in the
    environment, and stops after the workspace command when it is not. *)
Lemma C10_counterexample :
  invoked (events_of (run (Examples.host_needs_secret Examples.env_secret)
                          (Examples.runner "staging" false)) Examples.start) =
    [["/usr/bin/terraform"; "workspace"; "select"; "-or-create=true"; "staging"];
     ["/usr/bin/terraform"; "plan"; "-input=false"; "-var-file=dev.tfvars";
      "-var-file=common.tfvars"; "-var=env=dev"]] /\
  invoked (events_of (run (Examples.host_needs_secret ∅)
                          (Examples.runner "staging" false)) Examples.start) =
    [["/usr/bin/terraform"; "workspace"; "select"; "-or-create=true"; "staging"]] /\
  spawn_envs (events_of (run (Examples.host_needs_secret Examples.env_secret)
                             (Examples.runner "staging" false)) Examples.start) =
    [None; None] /\
  azure_auth_py.detect_auth_method (Examples.host_needs_secret Examples.env_secret)
    Examples.authenticator = azure_auth_py.SERVICE_PRINCIPAL /\
  azure_auth_py.detect_auth_method (Examples.host_needs_secret ∅)
    Examples.authenticator = azure_auth_py.CLI.
Proof. repeat split; reflexivity. Qed.

(** C10, amended. A command built is the same whatever the Azure
    identifiers of the configuration, and no child process is given an
    environment mapping: it inherits the environment of the process. A
    dry run is the same on any two hosts and for any Azure identifiers; a
    real run is the same on two hosts whose changes of directory and child
    processes answer alike. [main] is the same on two hosts with the same
    runtime whose environments differ only in the variables the credential
    resolver reads. *)
Theorem C10_credential_independence (os1 os2 : OS) (s : state) :
  (forall a self c,
     build_command (runner_with_azure a self) c = build_command self c /\
     build_workspace_command (runner_with_azure a self) = build_workspace_command self) /\
  (forall self,
     Forall (fun env => env = None) (spawn_envs (events_of (run os1 self) s))) /\
  (forall a self,
     dry_run self = true ->
     run os1 (runner_with_azure a self) s = run os2 self s) /\
  (same_answers os1 os2 ->
   forall a self, run os1 (runner_with_azure a self) s = run os2 self s) /\
  ((forall k, k ∉ credential_vars -> environ os1 !! k = environ os2 !! k) ->
   same_runtime os1 os2 ->
   main os1 s = main os2 s).
Proof.
  split; [intros a self c; split; [apply build_command_with_azure|reflexivity]|].
  split.
  { intros self.
    destruct (run_events os1 self s) as (evs & main_cmd & Ht & _ & He & _).
    now rewrite (events_of_app _ _ _ Ht). }
  split; [intros a self; apply run_dry_same|].
  split; [intros H a self; now apply run_same|].
  intros He Hr. now apply main_same.
Qed.

Lemma C10_witness :
  run (Examples.host Examples.env_oidc None 0)
    (runner_with_azure
       {| config_py.subscription_id := "sub-123";
          config_py.tenant_id := "tenant-456";
          config_py.client_id := "client-789" |}
       (Examples.runner "staging" false)) Examples.start =
  run (Examples.host ∅ (Some "/usr/bin/terraform") 0)
    (Examples.runner "staging" false) Examples.start /\
  main (Examples.host Examples.env_oidc None 0) Examples.start =
  main (Examples.host ∅ (Some "/usr/bin/terraform") 0) Examples.start.
Proof.
  destruct (C10_credential_independence
              (Examples.host Examples.env_oidc None 0)
              (Examples.host ∅ (Some "/usr/bin/terraform") 0) Examples.start)
    as (_ & _ & _ & H4 & H5).
  split.
  - apply H4. split; reflexivity.
  - apply H5.
    + intros k Hk. unfold Examples.env_oidc. cbn [environ Examples.host].
      apply lookup_insert_ne. intros <-. apply Hk. apply list_elem_of_here.
    + repeat split; reflexivity.
Defined.

End CredentialFacts.

(** * Further properties *)

(** ** Further properties: parsing and validation *)

Section StringFacts.
Import Py ObsMore.

Lemma lstrip_idem (s : string) : lstrip (lstrip s) = lstrip s.
Proof.
  induction s as [|c s IH]; simpl; [reflexivity|].
  destruct (is_space c) eqn:E; [exact IH|]. simpl. now rewrite E.
Qed.

Lemma rstrip_idem (s : string) : rstrip (rstrip s) = rstrip s.
Proof.
  induction s as [|c s IH]; simpl; [reflexivity|].
  destruct (is_empty (rstrip s) && is_space c)%bool eqn:E; [reflexivity|].
  simpl. now rewrite IH, E.
Qed.

Lemma lstrip_head (s : string) :
  lstrip s = "" \/ exists c t, lstrip s = String c t /\ is_space c = false.
Proof.
  induction s as [|c s IH]; simpl; [now left|].
  destruct (is_space c) eqn:E; [exact IH|]. right. eauto.
Qed.

Lemma lstrip_rstrip (s : string) :
  (s = "" \/ exists c t, s = String c t /\ is_space c = false) ->
  lstrip (rstrip s) = rstrip s.
Proof.
  intros [-> | (c & t & -> & E)]; [reflexivity|].
  simpl. rewrite E, andb_false_r. simpl. now rewrite E.
Qed.

Lemma ascii_strip_idem (s : string) : ascii_strip (ascii_strip s) = ascii_strip s.
Proof.
  unfold ascii_strip. rewrite (lstrip_rstrip (lstrip s) (lstrip_head s)).
  apply rstrip_idem.
Qed.

Lemma all_chars_lstrip (p : ascii -> bool) (s : string) :
  all_chars p s = true -> all_chars p (lstrip s) = true.
Proof.
  induction s as [|c s IH]; simpl; [reflexivity|].
  intros H. apply andb_true_iff in H as [H1 H2].
  destruct (is_space c); [now apply IH|]. simpl. now rewrite H1, H2.
Qed.

Lemma all_chars_rstrip (p : ascii -> bool) (s : string) :
  all_chars p s = true -> all_chars p (rstrip s) = true.
Proof.
  induction s as [|c s IH]; simpl; [reflexivity|].
  intros H. apply andb_true_iff in H as [H1 H2].
  destruct (is_empty (rstrip s) && is_space c)%bool; [reflexivity|].
  simpl. now rewrite H1, IH.
Qed.

Lemma all_chars_map_chars (p : ascii -> bool) (f : ascii -> ascii) (s : string) :
  (forall c, p c = true -> p (f c) = true) ->
  all_chars p s = true -> all_chars p (map_chars f s) = true.
Proof.
  intros Hf. induction s as [|c s IH]; simpl; [reflexivity|].
  intros H. apply andb_true_iff in H as [H1 H2]. now rewrite Hf, IH.
Qed.


Lemma all_chars_split (p : ascii -> bool) (sep : ascii) (s : string) :
  all_chars p s = true -> Forall (fun w => all_chars p w = true) (split sep s).
Proof.
  induction s as [|c s IH]; simpl; [repeat constructor|].
  intros H. apply andb_true_iff in H as [H1 H2]. specialize (IH H2).
  destruct (Ascii.eqb c sep); [now constructor|].
  destruct (split sep s) as [|w ws]; [repeat constructor; simpl; now rewrite H1|].
  inversion IH as [|? ? Hw Hws]; subst. constructor; [|exact Hws].
  simpl. now rewrite H1, Hw.
Qed.

Lemma all_chars_split_once (p : ascii -> bool) (sep : ascii) (s k v : string) :
  all_chars p s = true -> split_once sep s = Some (k, v) ->
  all_chars p k = true /\ all_chars p v = true.
Proof.
  revert k. induction s as [|c s IH]; simpl; [discriminate|].
  intros k H. apply andb_true_iff in H as [H1 H2].
  destruct (Ascii.eqb c sep); [intros [= <- <-]; now split|].
  destruct (split_once sep s) as [[k' v']|]; [|discriminate].
  intros [= <- <-]. destruct (IH k' H2 eq_refl) as [Hk Hv].
  split; [simpl; now rewrite H1, Hk|exact Hv].
Qed.

Lemma lower_char_ascii (c : ascii) :
  is_ascii_char c = true -> is_ascii_char (lower_char c) = true.
Proof. destruct c as [[] [] [] [] [] [] [] []]; intros H; try exact H; reflexivity. Qed.

Lemma upper_char_ascii (c : ascii) :
  is_ascii_char c = true -> is_ascii_char (upper_char c) = true.
Proof. destruct c as [[] [] [] [] [] [] [] []]; intros H; try exact H; reflexivity. Qed.

Lemma is_ascii_strip (s : string) : is_ascii s = true -> is_ascii (ascii_strip s) = true.
Proof. intros H. now apply all_chars_rstrip, all_chars_lstrip. Qed.

Lemma is_ascii_lower (s : string) : is_ascii s = true -> is_ascii (ascii_lower s) = true.
Proof. apply all_chars_map_chars, lower_char_ascii. Qed.

Lemma is_ascii_upper (s : string) : is_ascii s = true -> is_ascii (ascii_upper s) = true.
Proof. apply all_chars_map_chars, upper_char_ascii. Qed.

(** On ASCII text the methods are the computed ones. *)
Lemma strip_ascii (u : Unicode) (s : string) :
  is_ascii s = true -> strip u s = ascii_strip s.
Proof. unfold strip. now intros ->. Qed.

Lemma lower_ascii (u : Unicode) (s : string) :
  is_ascii s = true -> lower u s = ascii_lower s.
Proof. unfold lower. now intros ->. Qed.

Lemma upper_ascii (u : Unicode) (s : string) :
  is_ascii s = true -> upper u s = ascii_upper s.
Proof. unfold upper. now intros ->. Qed.


Lemma strip_idem (u : Unicode) (s : string) :
  is_ascii s = true -> strip u (strip u s) = strip u s.
Proof.
  intros H. rewrite (strip_ascii u s H).
  rewrite strip_ascii by (now apply is_ascii_strip). apply ascii_strip_idem.
Qed.

Lemma strip_is_ascii (u : Unicode) (s : string) :
  is_ascii s = true -> is_ascii (strip u s) = true.
Proof. intros H. rewrite (strip_ascii u s H). now apply is_ascii_strip. Qed.

Lemma split_nonempty (sep : ascii) (s : string) : split sep s <> [].
Proof.
  induction s as [|c s IH]; simpl; [discriminate|].
  destruct (Ascii.eqb c sep); [discriminate|].
  destruct (split sep s); discriminate.
Qed.

Lemma prefix_app (n b : string) : String.prefix n (n +:+ b) = true.
Proof.
  induction n as [|c n IH]; simpl; [now destruct b|].
  destruct (ascii_dec c c); [exact IH|congruence].
Qed.

Lemma contains_here (n b : string) : contains n (n +:+ b) = true.
Proof.
  pose proof (prefix_app n b) as H.
  destruct (n +:+ b); cbn [contains]; now rewrite H.
Qed.

Lemma contains_app (a n b : string) : contains n (a +:+ n +:+ b) = true.
Proof.
  induction a as [|c a IH]; [apply (contains_here n b)|].
  change (String c a +:+ n +:+ b) with (String c (a +:+ n +:+ b)).
  cbn [contains]. rewrite IH. apply orb_true_r.
Qed.

Lemma contains_end (a n : string) : contains n (a +:+ n) = true.
Proof.
  pose proof (contains_app a n "") as H.
  replace (n +:+ "") with n in H; [exact H|].
  clear. induction n as [|c n IH]; [reflexivity|].
  change (String c n +:+ "") with (String c (n +:+ "")). now f_equal.
Qed.

End StringFacts.

Section DictFacts.
Import Py ObsMore.

Lemma dict_set_keys (k v : string) (d : dict) :
  (dict_set k v d).*1 = if bool_decide (k ∈ d.*1) then d.*1 else d.*1 ++ [k].
Proof.
  induction d as [|[k' v'] d IH]; [reflexivity|].
  cbn [dict_set].
  destruct (String.eqb_spec k' k) as [->|Hne]; rewrite !fmap_cons; cbn [fst].
  - rewrite bool_decide_eq_true_2 by apply list_elem_of_here. reflexivity.
  - rewrite IH. destruct (bool_decide (k ∈ d.*1)) eqn:E.
    + apply bool_decide_eq_true in E.
      rewrite bool_decide_eq_true_2 by (now apply list_elem_of_further). reflexivity.
    + apply bool_decide_eq_false in E.
      rewrite bool_decide_eq_false_2; [reflexivity|].
      intros H. apply elem_of_cons in H. destruct H; congruence.
Qed.

Lemma dict_set_NoDup (k v : string) (d : dict) :
  NoDup d.*1 -> NoDup (dict_set k v d).*1.
Proof.
  intros H. rewrite dict_set_keys. case_bool_decide as E; [exact H|].
  apply NoDup_app. split; [exact H|]. split; [|apply NoDup_singleton].
  intros x Hx Hk. apply list_elem_of_singleton in Hk. congruence.
Qed.

Lemma dict_set_here (k v : string) (d : dict) : (k, v) ∈ dict_set k v d.
Proof.
  induction d as [|[k' v'] d IH]; simpl; [apply list_elem_of_here|].
  destruct (String.eqb k' k); [apply list_elem_of_here|].
  now apply list_elem_of_further.
Qed.

Lemma dict_set_elem (k v : string) (d : dict) (kv : string * string) :
  kv ∈ dict_set k v d -> kv = (k, v) \/ kv ∈ d.
Proof.
  induction d as [|[k' v'] d IH]; simpl; intros H.
  - apply list_elem_of_singleton in H. now left.
  - destruct (String.eqb k' k).
    + apply elem_of_cons in H. destruct H as [->|H]; [now left|].
      right. now apply list_elem_of_further.
    + apply elem_of_cons in H. destruct H as [->|H].
      * right. apply list_elem_of_here.
      * destruct (IH H) as [->|H']; [now left|].
        right. now apply list_elem_of_further.
Qed.

Lemma parse_pairs_app (u : Unicode) (l1 l2 : list string) (d : dict) :
  config_py.parse_pairs u (l1 ++ l2) d =
  config_py.parse_pairs u l2 (config_py.parse_pairs u l1 d).
Proof.
  revert d. induction l1 as [|item l1 IH]; intros d; simpl; [reflexivity|].
  destruct (split_once "=" (strip u item)) as [[k v]|]; apply IH.
Qed.

Lemma parse_pairs_NoDup (u : Unicode) (l : list string) (d : dict) :
  NoDup d.*1 -> NoDup (config_py.parse_pairs u l d).*1.
Proof.
  revert d. induction l as [|item l IH]; intros d H; simpl; [exact H|].
  destruct (split_once "=" (strip u item)) as [[k v]|]; apply IH; [|exact H].
  now apply dict_set_NoDup.
Qed.

(** On ASCII items the keys and the values are stripped. *)
Lemma parse_pairs_stripped (u : Unicode) (l : list string) (d : dict) :
  Forall (fun item => is_ascii item = true) l ->
  Forall (fun kv => stripped u kv.1 /\ stripped u kv.2) d ->
  Forall (fun kv => stripped u kv.1 /\ stripped u kv.2) (config_py.parse_pairs u l d).
Proof.
  intros Hl. revert d. induction Hl as [|item l Hi Hl IH]; intros d H; simpl; [exact H|].
  destruct (split_once "=" (strip u item)) as [[k v]|] eqn:E; apply IH; [|exact H].
  destruct (all_chars_split_once is_ascii_char "=" _ k v (strip_is_ascii u item Hi) E)
    as [Hk Hv].
  apply Forall_forall. intros kv Hkv.
  destruct (dict_set_elem _ _ _ _ Hkv) as [->|Hin].
  - split; now apply strip_idem.
  - rewrite Forall_forall in H. now apply H.
Qed.

End DictFacts.

Section CaseFacts.
Import Py ObsMore.

Lemma lower_char_space (c : ascii) : is_space (lower_char c) = is_space c.
Proof. destruct c as [[] [] [] [] [] [] [] []]; reflexivity. Qed.

Lemma upper_char_space (c : ascii) : is_space (upper_char c) = is_space c.
Proof. destruct c as [[] [] [] [] [] [] [] []]; reflexivity. Qed.

Lemma lower_upper_char (c : ascii) : lower_char (upper_char c) = lower_char c.
Proof. destruct c as [[] [] [] [] [] [] [] []]; reflexivity. Qed.

Lemma upper_lower_char (c : ascii) : upper_char (lower_char c) = upper_char c.
Proof. destruct c as [[] [] [] [] [] [] [] []]; reflexivity. Qed.

Lemma map_chars_empty (f : ascii -> ascii) (s : string) :
  is_empty (map_chars f s) = is_empty s.
Proof. now destruct s. Qed.

Lemma lstrip_map_chars (f : ascii -> ascii) (s : string) :
  (forall c, is_space (f c) = is_space c) ->
  lstrip (map_chars f s) = map_chars f (lstrip s).
Proof.
  intros Hf. induction s as [|c s IH]; simpl; [reflexivity|].
  rewrite Hf. now destruct (is_space c).
Qed.

Lemma rstrip_map_chars (f : ascii -> ascii) (s : string) :
  (forall c, is_space (f c) = is_space c) ->
  rstrip (map_chars f s) = map_chars f (rstrip s).
Proof.
  intros Hf. induction s as [|c s IH]; simpl; [reflexivity|].
  rewrite IH, Hf, map_chars_empty.
  now destruct (is_empty (rstrip s) && is_space c)%bool.
Qed.

Lemma ascii_strip_lower (s : string) :
  ascii_strip (ascii_lower s) = ascii_lower (ascii_strip s).
Proof.
  unfold ascii_strip, ascii_lower.
  rewrite lstrip_map_chars, rstrip_map_chars by apply lower_char_space.
  reflexivity.
Qed.

Lemma ascii_strip_upper (s : string) :
  ascii_strip (ascii_upper s) = ascii_upper (ascii_strip s).
Proof.
  unfold ascii_strip, ascii_upper.
  rewrite lstrip_map_chars, rstrip_map_chars by apply upper_char_space.
  reflexivity.
Qed.

Lemma ascii_lower_upper (s : string) : ascii_lower (ascii_upper s) = ascii_lower s.
Proof.
  unfold ascii_lower, ascii_upper. induction s as [|c s IH]; simpl; [reflexivity|].
  now rewrite IH, lower_upper_char.
Qed.

Lemma ascii_upper_lower (s : string) : ascii_upper (ascii_lower s) = ascii_upper s.
Proof.
  unfold ascii_lower, ascii_upper. induction s as [|c s IH]; simpl; [reflexivity|].
  now rewrite IH, upper_lower_char.
Qed.

(** Normalising a command or a level, on ASCII text. *)
Lemma strip_lower_ascii (u : Unicode) (s : string) :
  is_ascii s = true -> strip u (lower u s) = ascii_strip (ascii_lower s).
Proof.
  intros H. rewrite (lower_ascii u s H).
  now rewrite strip_ascii by (now apply is_ascii_lower).
Qed.

Lemma strip_upper_ascii (u : Unicode) (s : string) :
  is_ascii s = true -> strip u (upper u s) = ascii_strip (ascii_upper s).
Proof.
  intros H. rewrite (upper_ascii u s H).
  now rewrite strip_ascii by (now apply is_ascii_upper).
Qed.

Lemma command_of_value_sound (v : string) (c : config_py.TerraformCommand) :
  config_py.command_of_value v = Some c -> v = config_py.value c.
Proof.
  unfold config_py.command_of_value.
  repeat match goal with
         | |- context [String.eqb v ?x] => destruct (String.eqb_spec v x)
         end; intros [= <-]; assumption.
Qed.

End CaseFacts.

Section ParseFacts.
Import Py Eff Sys ObsMore config_py.

Lemma parse_command_sound (u : Unicode) (v : string) (c : TerraformCommand) :
  _parse_command u v = Ok c -> strip u (lower u v) = value c.
Proof.
  unfold _parse_command.
  destruct (command_of_value _) as [c'|] eqn:E; [|discriminate].
  intros [= <-]. now apply command_of_value_sound.
Qed.

Lemma parse_command_raises (u : Unicode) (v : string) (e : exn) :
  _parse_command u v = Raise e ->
  exists msg, e = ValueError msg /\ contains (strip u (lower u v)) msg = true.
Proof.
  unfold _parse_command.
  destruct (command_of_value _); [discriminate|].
  intros [= <-]. eexists. split; [reflexivity|]. apply contains_app.
Qed.

Lemma parse_command_ascii (u : Unicode) (v : string) :
  is_ascii v = true ->
  _parse_command u (strip u v) = _parse_command u v /\
  _parse_command u (upper u v) = _parse_command u v /\
  _parse_command u (lower u v) = _parse_command u v.
Proof.
  intros H. unfold _parse_command.
  assert (E1 : strip u (lower u (strip u v)) = strip u (lower u v)).
  { rewrite (strip_lower_ascii u v H).
    rewrite (strip_lower_ascii u (strip u v)) by (now apply strip_is_ascii).
    rewrite (strip_ascii u v H).
    now rewrite ascii_strip_lower, ascii_strip_idem, <- ascii_strip_lower. }
  assert (E2 : strip u (lower u (upper u v)) = strip u (lower u v)).
  { rewrite (strip_lower_ascii u v H), (upper_ascii u v H).
    rewrite (strip_lower_ascii u (ascii_upper v)) by (now apply is_ascii_upper).
    now rewrite ascii_lower_upper. }
  assert (E3 : strip u (lower u (lower u v)) = strip u (lower u v)).
  { rewrite (strip_lower_ascii u v H), (lower_ascii u v H).
    rewrite (strip_lower_ascii u (ascii_lower v)) by (now apply is_ascii_lower).
    f_equal. unfold ascii_lower. clear. induction v as [|c v IH]; simpl; [reflexivity|].
    rewrite IH. f_equal. destruct c as [[] [] [] [] [] [] [] []]; reflexivity. }
  now rewrite E1, E2, E3.
Qed.

(** X1. [_parse_command] reads back every command's value, in lower or
    upper case. An ASCII string and its stripped, upper-cased or
    lower-cased form parse alike. What it accepts normalises, by [lower]
    then [strip], to the value of the result; what it rejects comes back
    as a [ValueError] quoting the normalised string. *)
Theorem X1_parse_command_normalises (u : Unicode) :
  (forall c, _parse_command u (value c) = Ok c /\
             _parse_command u (upper u (value c)) = Ok c) /\
  (forall v, is_ascii v = true ->
             _parse_command u (strip u v) = _parse_command u v /\
             _parse_command u (upper u v) = _parse_command u v /\
             _parse_command u (lower u v) = _parse_command u v) /\
  (forall v c, _parse_command u v = Ok c -> strip u (lower u v) = value c) /\
  (forall v e, _parse_command u v = Raise e ->
     exists msg, e = ValueError msg /\ contains (strip u (lower u v)) msg = true).
Proof.
  split; [intros []; split; reflexivity|]. split; [|split].
  - apply parse_command_ascii.
  - apply parse_command_sound.
  - apply parse_command_raises.
Qed.

Lemma X1_parse_command_normalises_witness :
  _parse_command Examples.runtime (strip Examples.runtime "  Plan ") =
    _parse_command Examples.runtime "  Plan " /\
  strip Examples.runtime (lower Examples.runtime " APPLY") = "apply" /\
  exists msg,
    ValueError
      "Invalid command 'bogus'. Valid commands: ['init', 'validate', 'plan', 'apply', 'destroy']"
      = ValueError msg /\
    contains (strip Examples.runtime (lower Examples.runtime "Bogus ")) msg = true.
Proof.
  destruct (X1_parse_command_normalises Examples.runtime) as (_ & H2 & H3 & H4).
  split; [exact (proj1 (H2 "  Plan " eq_refl))|].
  split; [exact (H3 " APPLY" APPLY eq_refl)|].
  exact (H4 "Bogus " _ eq_refl).
Defined.

Lemma parse_tfvars_files_elem (u : Unicode) (value f : string) :
  f ∈ _parse_tfvars_files u value <->
  f <> "" /\ exists seg, seg ∈ split "," value /\ f = strip u seg.
Proof.
  unfold _parse_tfvars_files.
  destruct value as [|c value'] eqn:Ev.
  - cbn [is_empty]. split; [intros Hin; inversion Hin|].
    intros [Hne (seg & Hseg & ->)].
    apply list_elem_of_singleton in Hseg. subst seg. now destruct Hne.
  - cbn [is_empty]. rewrite list_elem_of_In, filter_In, in_map_iff.
    rewrite negb_true_iff, is_empty_false.
    split.
    + intros [(seg & <- & Hseg) Hne]. split; [exact Hne|].
      exists seg. now rewrite list_elem_of_In.
    + intros [Hne (seg & Hseg & ->)]. split; [|exact Hne].
      exists seg. now rewrite <- list_elem_of_In.
Qed.

Lemma parse_tfvars_files_clean (u : Unicode) (value : string) :
  is_ascii value = true ->
  Forall (fun f => f <> "" /\ stripped u f /\ is_ascii f = true)
    (_parse_tfvars_files u value).
Proof.
  intros Ha. apply Forall_forall. intros f Hf. apply parse_tfvars_files_elem in Hf.
  destruct Hf as [Hne (seg & Hseg & ->)]. split; [exact Hne|].
  pose proof (all_chars_split is_ascii_char "," value Ha) as Hs.
  rewrite Forall_forall in Hs. specialize (Hs seg Hseg).
  split; [now apply strip_idem|now apply strip_is_ascii].
Qed.

(** X2. [_parse_tfvars_files] returns the stripped comma-separated
    segments that are not empty once stripped, and nothing else. When the
    value is ASCII, no entry has leading or trailing whitespace. *)
Theorem X2_parse_tfvars_files_entries (u : Unicode) (value : string) :
  (forall f, f ∈ _parse_tfvars_files u value <->
             f <> "" /\ exists seg, seg ∈ split "," value /\ f = strip u seg) /\
  (is_ascii value = true ->
   Forall (fun f => f <> "" /\ stripped u f /\ is_ascii f = true)
     (_parse_tfvars_files u value)).
Proof.
  split; [intros f; apply parse_tfvars_files_elem|apply parse_tfvars_files_clean].
Qed.

Lemma X2_parse_tfvars_files_entries_witness :
  Forall (fun f => f <> "" /\ stripped Examples.runtime f /\ is_ascii f = true)
    (_parse_tfvars_files Examples.runtime "dev.tfvars , common.tfvars,, ").
Proof.
  apply (X2_parse_tfvars_files_entries Examples.runtime
           "dev.tfvars , common.tfvars,, ").
  reflexivity.
Defined.

Lemma parse_var_overrides_raises (os : OS) (value : string) (e : exn) :
  _parse_var_overrides os value = Raise e ->
  value <> "" /\ json_loads os value = JsonRaises e.
Proof.
  unfold _parse_var_overrides. destruct value as [|c v]; [discriminate|].
  cbn [is_empty]. destruct (json_loads os _); try discriminate.
  intros [= <-]. split; [discriminate|reflexivity].
Qed.

Lemma replace_char_ascii (a b : ascii) (s : string) :
  is_ascii_char b = true -> is_ascii s = true -> is_ascii (replace_char a b s) = true.
Proof.
  intros Hb. apply all_chars_map_chars. intros c Hc.
  now destruct (Ascii.eqb c a).
Qed.

(** X3. [_parse_var_overrides] raises exactly what [json.loads] raises
    other than a decoding error, and only on a non-empty value; the
    empty value gives the empty dictionary and a JSON object its items.
    When the value is not a JSON object, the key=value fallback yields a
    dictionary with distinct keys, and on an ASCII value its keys and
    values carry no surrounding whitespace. *)
Theorem X3_parse_var_overrides_fallback (os : OS) (value : string) :
  (forall e, _parse_var_overrides os value = Raise e <->
     value <> "" /\ json_loads os value = JsonRaises e) /\
  (value = "" -> _parse_var_overrides os value = Ok []) /\
  (forall items, value <> "" -> json_loads os value = JsonDict items ->
     _parse_var_overrides os value = Ok items) /\
  (json_loads os value = JsonDecodeError \/ json_loads os value = JsonOther ->
   exists d, _parse_var_overrides os value = Ok d /\
             NoDup d.*1 /\
             (is_ascii value = true ->
              Forall (fun kv => stripped (unicode os) kv.1 /\
                                stripped (unicode os) kv.2) d)).
Proof.
  split; [|split; [|split]].
  - intros e. split; [apply parse_var_overrides_raises|].
    intros [Hne Hj]. unfold _parse_var_overrides.
    apply is_empty_false in Hne. now rewrite Hne, Hj.
  - now intros ->.
  - intros items Hne Hj. unfold _parse_var_overrides.
    apply is_empty_false in Hne. now rewrite Hne, Hj.
  - unfold _parse_var_overrides. intros Hj.
    assert (Hfb : exists d,
      Ok (parse_pairs (unicode os) (split "," (replace_char "010" "," value)) []) = Ok d /\
      NoDup d.*1 /\
      (is_ascii value = true ->
       Forall (fun kv => stripped (unicode os) kv.1 /\ stripped (unicode os) kv.2) d)).
    { eexists. split; [reflexivity|]. split.
      - apply parse_pairs_NoDup. constructor.
      - intros Ha. apply parse_pairs_stripped; [|constructor].
        apply (all_chars_split is_ascii_char).
        now apply replace_char_ascii. }
    destruct (is_empty value).
    + exists []. split; [reflexivity|]. split; constructor.
    + destruct Hj as [-> | ->]; exact Hfb.
Qed.

Lemma X3_parse_var_overrides_fallback_witness :
  (exists d,
    _parse_var_overrides (Examples.host ∅ None 0) "env = dev , count=3,env=prod" = Ok d /\
    NoDup d.*1 /\
    (is_ascii "env = dev , count=3,env=prod" = true ->
     Forall (fun kv => stripped Examples.runtime kv.1 /\
                       stripped Examples.runtime kv.2) d)) /\
  _parse_var_overrides MoreExamples.host_long_integer MoreExamples.long_integer =
    Raise (ValueError
      ("Exceeds the limit (4300 digits) for integer string conversion: " +:+
       "value has 4301 digits; use sys.set_int_max_str_digits() to increase the limit")).
Proof.
  split.
  - apply (X3_parse_var_overrides_fallback (Examples.host ∅ None 0)).
    left. reflexivity.
  - apply (X3_parse_var_overrides_fallback MoreExamples.host_long_integer).
    split; [discriminate|]. vm_compute. reflexivity.
Defined.

(** X4. In the key=value loop a later pair wins: after a pair [k=v] comes
    last, the dictionary maps the stripped key to the stripped value and to
    nothing else. *)
Theorem X4_parse_pairs_last_wins (u : Unicode) (pairs : list string) (overrides : dict)
    (item k v : string) :
  NoDup overrides.*1 ->
  split_once "=" (strip u item) = Some (k, v) ->
  (strip u k, strip u v) ∈ parse_pairs u (pairs ++ [item]) overrides /\
  (forall v', (strip u k, v') ∈ parse_pairs u (pairs ++ [item]) overrides ->
              v' = strip u v).
Proof.
  intros Hnd Hs. rewrite parse_pairs_app. cbn [parse_pairs]. rewrite Hs.
  assert (Hin : (strip u k, strip u v)
                  ∈ dict_set (strip u k) (strip u v) (parse_pairs u pairs overrides))
    by apply dict_set_here.
  split; [exact Hin|].
  intros v' Hin'.
  pose proof (dict_set_NoDup (strip u k) (strip u v) _
                (parse_pairs_NoDup u pairs overrides Hnd)) as Hnd'.
  apply list_elem_of_lookup in Hin as [i Hi].
  apply list_elem_of_lookup in Hin' as [j Hj].
  assert (i = j).
  { eapply NoDup_lookup; [exact Hnd'| |];
      rewrite list_lookup_fmap; [rewrite Hi|rewrite Hj]; reflexivity. }
  subst j. congruence.
Qed.

Lemma X4_parse_pairs_last_wins_witness :
  ("env", "prod")
    ∈ parse_pairs Examples.runtime (["env=dev"; "count = 3"] ++ [" env = prod "]) [].
Proof.
  apply (X4_parse_pairs_last_wins Examples.runtime ["env=dev"; "count = 3"] []
           " env = prod " "env " " prod").
  - constructor.
  - reflexivity.
Defined.

End ParseFacts.

Section ValidateFacts.
Import Py Eff Sys ObsMore config_py.






End ValidateFacts.

(** ** Further properties: loading the configuration *)

Section LoadFacts.
Import Py Eff Sys ObsMore config_py.

Lemma get_input_unset (os : OS) (name default : string) :
  (forall k, k ∈ input_vars -> environ os !! k = None) ->
  bool_decide (("INPUT_" +:+ upper (unicode os) name) ∈ input_vars) = true ->
  get_input os name default = default.
Proof.
  intros H Hk. apply bool_decide_eq_true in Hk.
  unfold get_input, env_get_default. now rewrite (H _ Hk).
Qed.

(** X6. [load_config_from_env] fails in two ways only: with the
    [ValueError] of [_parse_command], which comes first, or with what
    [json.loads] raises on the overrides other than a decoding error. A
    configuration it returns has the command its input normalises to, the
    variable files that are the stripped non-empty segments of their
    input, and the workspace input as it is, not stripped. *)
Theorem X6_load_config_outcomes (os : OS) :
  (forall e, load_config_from_env os = Raise e ->
     (exists msg, e = ValueError msg /\
        _parse_command (unicode os) (env_get_default os "INPUT_COMMAND" "plan") =
          Raise (ValueError msg)) \/
     (exists cmd,
        _parse_command (unicode os) (env_get_default os "INPUT_COMMAND" "plan") = Ok cmd /\
        env_get_default os "INPUT_VAR_OVERRIDES" "" <> "" /\
        json_loads os (env_get_default os "INPUT_VAR_OVERRIDES" "") = JsonRaises e)) /\
  (forall e,
     _parse_command (unicode os) (env_get_default os "INPUT_COMMAND" "plan") = Raise e ->
     load_config_from_env os = Raise e) /\
  (forall cmd e,
     _parse_command (unicode os) (env_get_default os "INPUT_COMMAND" "plan") = Ok cmd ->
     env_get_default os "INPUT_VAR_OVERRIDES" "" <> "" ->
     json_loads os (env_get_default os "INPUT_VAR_OVERRIDES" "") = JsonRaises e ->
     load_config_from_env os = Raise e) /\
  (forall c, load_config_from_env os = Ok c ->
     strip (unicode os) (lower (unicode os) (env_get_default os "INPUT_COMMAND" "plan")) =
       value (command c) /\
     (forall f, f ∈ tfvars_files c <->
        f <> "" /\
        exists seg, seg ∈ split "," (env_get_default os "INPUT_TFVARS_FILES" "") /\
                    f = strip (unicode os) seg) /\
     workspace c = env_get_default os "INPUT_WORKSPACE" "default").
Proof.
  unfold load_config_from_env.
  change (get_input os "command" "plan")
    with (env_get_default os "INPUT_COMMAND" "plan").
  change (get_input os "var_overrides" "")
    with (env_get_default os "INPUT_VAR_OVERRIDES" "").
  change (get_input os "tfvars_files" "")
    with (env_get_default os "INPUT_TFVARS_FILES" "").
  change (get_input os "workspace" "default")
    with (env_get_default os "INPUT_WORKSPACE" "default").
  split; [|split; [|split]].
  - intros e.
    destruct (_parse_command _ _) as [cmd|e1] eqn:Ec; cbn [obind].
    + destruct (_parse_var_overrides os _) as [ov|e2] eqn:Eo; cbn [obind];
        [discriminate|].
      intros [= <-]. right. exists cmd. split; [reflexivity|].
      now apply parse_var_overrides_raises.
    + intros [= <-]. left.
      destruct (parse_command_raises _ _ _ Ec) as (msg & -> & _).
      eauto.
  - intros e ->. reflexivity.
  - intros cmd e -> Hne Hj. cbn [obind]. unfold _parse_var_overrides.
    apply is_empty_false in Hne. now rewrite Hne, Hj.
  - intros c.
    destruct (_parse_command _ _) as [cmd|e1] eqn:Ec; cbn [obind]; [|discriminate].
    destruct (_parse_var_overrides os _) as [ov|e2]; cbn [obind]; [|discriminate].
    intros [= <-]. cbn [command tfvars_files workspace]. split; [|split].
    + now apply parse_command_sound.
    + intros f. apply parse_tfvars_files_elem.
    + reflexivity.
Qed.

Lemma X6_load_config_outcomes_witness :
  load_config_from_env MoreExamples.host_long_integer =
    Raise (ValueError
      ("Exceeds the limit (4300 digits) for integer string conversion: " +:+
       "value has 4301 digits; use sys.set_int_max_str_digits() to increase the limit")) /\
  load_config_from_env (Examples.host Examples.env_bad_command None 0) =
    Raise (ValueError ("Invalid command 'bogus'. Valid commands: " +:+
                       "['init', 'validate', 'plan', 'apply', 'destroy']")).
Proof.
  split.
  - apply (proj1 (proj2 (proj2 (X6_load_config_outcomes
                                  MoreExamples.host_long_integer))) PLAN).
    + reflexivity.
    + discriminate.
    + vm_compute. reflexivity.
  - apply (proj1 (proj2 (X6_load_config_outcomes
                           (Examples.host Examples.env_bad_command None 0)))).
    reflexivity.
Defined.

(** X7. When none of the ten input variables is set, whatever else the
    environment holds, [load_config_from_env] returns the defaults: the
    directory ".", the command plan, the workspace "default", no files, no
    overrides, no Azure identifiers and the log level INFO. *)
Theorem X7_load_config_defaults (os : OS) :
  (forall k, k ∈ input_vars -> environ os !! k = None) ->
  load_config_from_env os = Ok Examples.cfg_default.
Proof.
  intros H. unfold load_config_from_env.
  rewrite (get_input_unset os "azure_subscription_id" "" H) by reflexivity.
  rewrite (get_input_unset os "azure_tenant_id" "" H) by reflexivity.
  rewrite (get_input_unset os "azure_client_id" "" H) by reflexivity.
  rewrite (get_input_unset os "command" "plan" H) by reflexivity.
  rewrite (get_input_unset os "log_level" "INFO" H) by reflexivity.
  rewrite (get_input_unset os "tf_directory" "." H) by reflexivity.
  rewrite (get_input_unset os "tfvars_files" "" H) by reflexivity.
  rewrite (get_input_unset os "backend_config_file" "" H) by reflexivity.
  rewrite (get_input_unset os "workspace" "default" H) by reflexivity.
  rewrite (get_input_unset os "var_overrides" "" H) by reflexivity.
  reflexivity.
Qed.

Lemma X7_load_config_defaults_witness :
  load_config_from_env (Examples.host Examples.env_oidc None 0) = Ok Examples.cfg_default.
Proof.
  apply (X7_load_config_defaults (Examples.host Examples.env_oidc None 0)).
  intros k Hk. cbn [environ Examples.host]. unfold Examples.env_oidc.
  rewrite lookup_insert_ne; [apply lookup_empty|].
  intros <-. revert Hk. unfold input_vars. rewrite !elem_of_cons.
  intros H. repeat (destruct H as [H|H]; [discriminate H|]). inversion H.
Defined.

End LoadFacts.

(** ** Further properties: the credential resolver *)

Section ResolverFacts.
Import Py Eff Sys Obs ObsMore azure_auth_py.

Lemma truthy_default (o : option string) : truthy o = true -> default "" o <> "".
Proof. destruct o as [[|c s]|]; simpl; congruence. Qed.

Lemma detect_service_principal (os : OS) (self : AzureAuthenticator.t) :
  detect_auth_method os self = SERVICE_PRINCIPAL ->
  truthy (or_else (env_get os "AZURE_CLIENT_SECRET")
                  (env_get os "ARM_CLIENT_SECRET")) = true.
Proof.
  unfold detect_auth_method.
  destruct (truthy (env_get os "ACTIONS_ID_TOKEN_REQUEST_TOKEN")); [discriminate|].
  destruct (truthy (or_else (env_get os "AZURE_CLIENT_SECRET") _)); [reflexivity|].
  destruct (truthy (or_else (env_get os "MSI_ENDPOINT") _)); discriminate.
Qed.

(** X8. [authenticate] fails only for the two methods that are not
    implemented, OIDC and managed identity, with a [NotImplementedError]
    whose message names the azure/login workaround; it never raises the
    missing-secret [ValueError], since the service-principal method is
    detected only when a secret is set. *)
Theorem X8_authenticate_failures (os : OS) (self : AzureAuthenticator.t) (e : exn) :
  authenticate os self = Raise e ->
  (exists msg, e = NotImplementedError msg /\ contains "azure/login" msg = true) /\
  (detect_auth_method os self = OIDC \/ detect_auth_method os self = MANAGED_IDENTITY).
Proof.
  unfold authenticate.
  destruct (detect_auth_method os self) eqn:E.
  - intros [= <-]. split; [|now left].
    eexists. split; [reflexivity|]. vm_compute. reflexivity.
  - unfold authenticate_service_principal.
    rewrite (detect_service_principal os self E). discriminate.
  - intros [= <-]. split; [|now right].
    eexists. split; [reflexivity|]. vm_compute. reflexivity.
  - discriminate.
Qed.

Lemma X8_authenticate_failures_witness :
  detect_auth_method (Examples.host Examples.env_oidc None 0) Examples.authenticator
    = OIDC \/
  detect_auth_method (Examples.host Examples.env_oidc None 0) Examples.authenticator
    = MANAGED_IDENTITY.
Proof.
  eapply (X8_authenticate_failures (Examples.host Examples.env_oidc None 0)
            Examples.authenticator).
  reflexivity.
Defined.

(** X9. Credentials returned by [authenticate] carry the detected method,
    which is service principal or CLI, the identifiers of the
    authenticator and no token; they carry a secret exactly for the
    service-principal method, and it is the value of [AZURE_CLIENT_SECRET]
    if set, else of [ARM_CLIENT_SECRET]. *)
Theorem X9_authenticate_credentials (os : OS) (self : AzureAuthenticator.t)
    (c : AzureCredentials.t) :
  authenticate os self = Ok c ->
  AzureCredentials.auth_method c = detect_auth_method os self /\
  (AzureCredentials.auth_method c = SERVICE_PRINCIPAL \/
   AzureCredentials.auth_method c = CLI) /\
  AzureCredentials.subscription_id c = AzureAuthenticator.subscription_id self /\
  AzureCredentials.tenant_id c = AzureAuthenticator.tenant_id self /\
  AzureCredentials.client_id c = AzureAuthenticator.client_id self /\
  AzureCredentials.token c = "" /\
  (AzureCredentials.client_secret c <> "" <->
   AzureCredentials.auth_method c = SERVICE_PRINCIPAL) /\
  (AzureCredentials.auth_method c = SERVICE_PRINCIPAL ->
   Some (AzureCredentials.client_secret c) =
     or_else (env_get os "AZURE_CLIENT_SECRET") (env_get os "ARM_CLIENT_SECRET")).
Proof.
  unfold authenticate.
  destruct (detect_auth_method os self) eqn:E; try discriminate.
  - unfold authenticate_service_principal.
    pose proof (detect_service_principal os self E) as Ht. rewrite Ht.
    intros [= <-]. cbn.
    split; [reflexivity|]. split; [now left|]. do 4 (split; [reflexivity|]).
    split; [split; [reflexivity|intros _; now apply truthy_default]|].
    intros _. destruct (or_else _ _); [reflexivity|discriminate Ht].
  - intros [= <-]. cbn.
    split; [reflexivity|]. split; [now right|]. do 4 (split; [reflexivity|]).
    split; [split; [congruence|discriminate]|discriminate].
Qed.

Lemma X9_authenticate_credentials_witness :
  exists c,
    authenticate (Examples.host Examples.env_sp_and_msi None 0) Examples.authenticator
      = Ok c /\
    AzureCredentials.client_secret c = "s3cret".
Proof.
  eexists. split; [reflexivity|].
  assert (H : forall s, Some s = Some "s3cret" -> s = "s3cret") by congruence.
  apply H.
  apply (X9_authenticate_credentials (Examples.host Examples.env_sp_and_msi None 0)
           Examples.authenticator); reflexivity.
Defined.

Lemma env_vars_token (c : AzureCredentials.t) :
  AzureCredentials.token c = "" ->
  set_terraform_env_vars c !! "ARM_OIDC_TOKEN" = None /\
  set_terraform_env_vars c !! "ARM_USE_OIDC" = None.
Proof.
  destruct c as [sub ten cid sec tok meth]. cbn. intros ->.
  unfold set_terraform_env_vars. cbn.
  destruct cid, sec; cbn; simplify_map_eq; done.
Qed.

Lemma env_vars_secret (c : AzureCredentials.t) :
  set_terraform_env_vars c !! "ARM_CLIENT_SECRET" =
    if is_empty (AzureCredentials.client_secret c) then None
    else Some (AzureCredentials.client_secret c).
Proof.
  destruct c as [sub ten cid sec tok meth].
  unfold set_terraform_env_vars. cbn.
  destruct cid, sec, tok; cbn; simplify_map_eq; done.
Qed.

Lemma env_vars_ids (c : AzureCredentials.t) :
  set_terraform_env_vars c !! "ARM_SUBSCRIPTION_ID"
    = Some (AzureCredentials.subscription_id c) /\
  set_terraform_env_vars c !! "ARM_TENANT_ID" = Some (AzureCredentials.tenant_id c).
Proof.
  destruct c as [sub ten cid sec tok meth].
  unfold set_terraform_env_vars. cbn.
  destruct cid, sec, tok; cbn; simplify_map_eq; done.
Qed.

(** X10. The environment projected from credentials that [authenticate]
    returned never enables OIDC, holds the identifiers of the
    authenticator, and holds [ARM_CLIENT_SECRET] exactly when the detected
    method is service principal. *)
Theorem X10_authenticate_then_project (os : OS) (self : AzureAuthenticator.t)
    (c : AzureCredentials.t) :
  authenticate os self = Ok c ->
  set_terraform_env_vars c !! "ARM_USE_OIDC" = None /\
  set_terraform_env_vars c !! "ARM_OIDC_TOKEN" = None /\
  set_terraform_env_vars c !! "ARM_SUBSCRIPTION_ID"
    = Some (AzureAuthenticator.subscription_id self) /\
  set_terraform_env_vars c !! "ARM_TENANT_ID"
    = Some (AzureAuthenticator.tenant_id self) /\
  (is_Some (set_terraform_env_vars c !! "ARM_CLIENT_SECRET") <->
   detect_auth_method os self = SERVICE_PRINCIPAL).
Proof.
  intros Ha. unfold authenticate in Ha.
  destruct (detect_auth_method os self) eqn:E; try discriminate.
  - unfold authenticate_service_principal in Ha.
    pose proof (detect_service_principal os self E) as Ht. rewrite Ht in Ha.
    injection Ha as <-.
    pose proof (truthy_default _ Ht) as Hne.
    match goal with
    | |- context [set_terraform_env_vars ?c] =>
        destruct (env_vars_token c eq_refl) as [H1 H2];
        destruct (env_vars_ids c) as [H3 H4]
    end.
    rewrite H1, H2, H3, H4, env_vars_secret. cbn.
    apply is_empty_false in Hne. rewrite Hne.
    repeat split; eauto.
  - injection Ha as <-.
    match goal with
    | |- context [set_terraform_env_vars ?c] =>
        destruct (env_vars_token c eq_refl) as [H1 H2];
        destruct (env_vars_ids c) as [H3 H4]
    end.
    rewrite H1, H2, H3, H4, env_vars_secret. cbn.
    repeat split; try discriminate. intros [v Hv]. discriminate.
Qed.

Lemma X10_authenticate_then_project_witness :
  is_Some (set_terraform_env_vars
    {| AzureCredentials.subscription_id := "sub-123";
       AzureCredentials.tenant_id := "tenant-456";
       AzureCredentials.client_id := "client-789";
       AzureCredentials.client_secret := "s3cret";
       AzureCredentials.token := "";
       AzureCredentials.auth_method := SERVICE_PRINCIPAL |} !! "ARM_CLIENT_SECRET").
Proof.
  apply (X10_authenticate_then_project (Examples.host Examples.env_sp_and_msi None 0)
           Examples.authenticator); reflexivity.
Defined.

End ResolverFacts.

Section ResolverFacts2.
Import Py Eff Sys Obs ObsMore azure_auth_py.

(** X11. [set_terraform_env_vars] sets no variable outside the six
    provider variables, and between two and six of them. *)
Theorem X11_set_terraform_env_vars_domain (c : AzureCredentials.t) :
  (forall k, is_Some (set_terraform_env_vars c !! k) -> k ∈ arm_vars) /\
  (2 <= size (set_terraform_env_vars c) <= 6)%nat.
Proof.
  destruct c as [sub ten cid sec tok meth]. unfold set_terraform_env_vars. cbn.
  split.
  - intros k [v Hv].
    destruct (is_empty cid), (is_empty sec), (is_empty tok); cbn in Hv;
      repeat match type of Hv with
             | <[_:=_]> _ !! _ = Some _ =>
                 apply lookup_insert_Some in Hv; destruct Hv as [[<- _]|[_ Hv]];
                 [unfold arm_vars; set_solver|]
             end;
      rewrite lookup_empty in Hv; discriminate.
  - destruct (is_empty cid), (is_empty sec), (is_empty tok); cbn;
      repeat (rewrite map_size_insert_None
                by (repeat (rewrite lookup_insert_ne by done); apply lookup_empty));
      rewrite map_size_empty; lia.
Qed.

Lemma new_client_id (sub ten cid : string) :
  AzureAuthenticator.client_id (AzureAuthenticator.new sub ten (Some cid)) = cid.
Proof. now destruct cid. Qed.

(** X12. [create_authenticator_from_env] gives an authenticator exactly when
    the loaded configuration says Azure is configured ([is_configured]),
    and the authenticator then holds the three identifiers of that
    configuration. *)
Theorem X12_create_authenticator_agrees (os : OS) (c : config_py.ActionConfig) :
  config_py.load_config_from_env os = Ok c ->
  (is_Some (create_authenticator_from_env os) <->
   config_py.is_configured (config_py.azure c) = true) /\
  (forall a, create_authenticator_from_env os = Some a ->
     AzureAuthenticator.subscription_id a = config_py.subscription_id (config_py.azure c) /\
     AzureAuthenticator.tenant_id a = config_py.tenant_id (config_py.azure c) /\
     AzureAuthenticator.client_id a = config_py.client_id (config_py.azure c)).
Proof.
  unfold config_py.load_config_from_env.
  destruct (config_py._parse_command _) as [cmd|e1]; cbn [obind]; [|discriminate].
  destruct (config_py._parse_var_overrides os _) as [ov|e2]; cbn [obind];
    [|discriminate].
  intros [= <-]. cbn [config_py.azure config_py.subscription_id config_py.tenant_id
                      config_py.client_id].
  unfold config_py.is_configured, create_authenticator_from_env.
  cbn [config_py.subscription_id config_py.tenant_id].
  change (config_py.get_input os "azure_subscription_id" "")
    with (env_get_default os "INPUT_AZURE_SUBSCRIPTION_ID" "").
  change (config_py.get_input os "azure_tenant_id" "")
    with (env_get_default os "INPUT_AZURE_TENANT_ID" "").
  change (config_py.get_input os "azure_client_id" "")
    with (env_get_default os "INPUT_AZURE_CLIENT_ID" "").
  destruct (is_empty (env_get_default os "INPUT_AZURE_SUBSCRIPTION_ID" ""));
    destruct (is_empty (env_get_default os "INPUT_AZURE_TENANT_ID" "")); cbn;
    (split; [split; [intros [a Ha]; discriminate || reflexivity
                    |intros H; discriminate || eauto]|]);
    intros a Ha; try discriminate Ha; injection Ha as <-;
    split; [reflexivity|]; split; [reflexivity|]; apply new_client_id.
Qed.

Lemma X12_create_authenticator_agrees_witness :
  is_Some (create_authenticator_from_env (Examples.host MoreExamples.env_azure None 0)).
Proof.
  apply (X12_create_authenticator_agrees (Examples.host MoreExamples.env_azure None 0)
           (Obs.with_azure {| config_py.subscription_id := "sub-123";
                              config_py.tenant_id := "tenant-456";
                              config_py.client_id := "" |} Examples.cfg_default));
    reflexivity.
Defined.

End ResolverFacts2.

(** ** Further properties: the runner *)

Section RunnerFacts.
Import Py Eff Sys Obs ObsMore terraform_runner_py.

(** X13. [build_command] never raises its unsupported-command error: every
    command has a builder, called without arguments, so plan gets no [-out]
    flag and apply is never in plan-file mode. *)
Theorem X13_build_command_dispatch (self : TerraformRunner)
    (c : config_py.TerraformCommand) :
  build_command self c =
    Ok match c with
       | config_py.INIT =>
           [terraform_path self; "init"; "-input=false"]
           ++ (if is_empty (config_py.backend_config_file (config self)) then []
               else ["-backend-config=" +:+ config_py.backend_config_file (config self)])
       | config_py.VALIDATE => [terraform_path self; "validate"]
       | config_py.PLAN =>
           [terraform_path self; "plan"; "-input=false"]
           ++ List.map var_file_flag (config_py.tfvars_files (config self))
           ++ List.map var_flag (config_py.var_overrides (config self))
       | config_py.APPLY =>
           [terraform_path self; "apply"; "-input=false"; "-auto-approve"]
           ++ List.map var_file_flag (config_py.tfvars_files (config self))
           ++ List.map var_flag (config_py.var_overrides (config self))
       | config_py.DESTROY =>
           [terraform_path self; "destroy"; "-input=false"; "-auto-approve"]
           ++ List.map var_file_flag (config_py.tfvars_files (config self))
           ++ List.map var_flag (config_py.var_overrides (config self))
       end.
Proof.
  rewrite build_command_total. f_equal.
  destruct c;
    unfold build_init_command, build_validate_command, build_plan_command,
      build_apply_command, build_destroy_command; cbn [truthy];
    rewrite ?append_each_map, <- ?app_assoc; try reflexivity.
  destruct (is_empty _); reflexivity.
Qed.

(** The result [run_command] builds from a completed process. *)
Lemma run_command_real (os : OS) (self : TerraformRunner) (cmd : list string)
    (s : state) :
  dry_run self = false ->
  run_command os self cmd s =
    match chdir os (cwd s) (config_py.tf_directory (config self)) with
    | Ok d1 =>
        match chdir os d1 (cwd s) with
        | Ok d2 =>
            (match subprocess_run os d1 cmd None with
             | Ok r => Ok {| return_code := returncode r; stdout := out r;
                             stderr := err r; command := cmd |}
             | Raise e => Raise e
             end,
             {| cwd := d2;
                trace := trace s ++
                  [Invoke cmd; Chdir (config_py.tf_directory (config self));
                   Spawn d1 cmd None; Chdir (cwd s)] |})
        | Raise e =>
            (Raise e,
             {| cwd := d1;
                trace := trace s ++
                  [Invoke cmd; Chdir (config_py.tf_directory (config self));
                   Spawn d1 cmd None] |})
        end
    | Raise e1 =>
        match chdir os (cwd s) (cwd s) with
        | Ok d2 =>
            (Raise e1, {| cwd := d2; trace := trace s ++ [Invoke cmd; Chdir (cwd s)] |})
        | Raise e => (Raise e, {| cwd := cwd s; trace := trace s ++ [Invoke cmd] |})
        end
    end.
Proof.
  intros Hd.
  unfold run_command, bind, emit, ret, try_finally, os_chdir, os_subprocess_run,
    getcwd, setcwd, lift, raise, bind, emit. simpl. rewrite Hd. simpl.
  destruct (chdir os (cwd s) _) as [d1|e1]; simpl.
  - destruct (subprocess_run os d1 cmd None) as [r|e2]; simpl;
      destruct (chdir os d1 (cwd s)) as [d2|e3]; simpl;
      rewrite <- ?app_assoc; reflexivity.
  - destruct (chdir os (cwd s) (cwd s)) as [d2|e3]; simpl;
      rewrite <- ?app_assoc; reflexivity.
Qed.

(** X14. In real mode, when both directory changes succeed, [run_command]
    returns the exit code and both streams of the child as a result,
    whatever the exit code, after exactly these effects: enter the
    configured directory, spawn the command there with no [env] argument,
    go back. *)
Theorem X14_run_command_real_result (os : OS) (self : TerraformRunner)
    (cmd : list string) (s : state) (d1 d2 : string) (r : completed) :
  dry_run self = false ->
  chdir os (cwd s) (config_py.tf_directory (config self)) = Ok d1 ->
  subprocess_run os d1 cmd None = Ok r ->
  chdir os d1 (cwd s) = Ok d2 ->
  run_command os self cmd s =
    (Ok {| return_code := returncode r; stdout := out r; stderr := err r;
           command := cmd |},
     {| cwd := d2;
        trace := trace s ++
          [Invoke cmd; Chdir (config_py.tf_directory (config self));
           Spawn d1 cmd None; Chdir (cwd s)] |}).
Proof.
  intros Hd H1 Hr H2. rewrite (run_command_real os self cmd s Hd), H1, H2, Hr.
  reflexivity.
Qed.

Lemma X14_run_command_real_result_witness :
  fst (run_command (Examples.host ∅ None 3) (Examples.runner "default" false)
         Examples.plan_cmd Examples.start) =
    Ok {| return_code := 3; stdout := ""; stderr := "workspace error";
          command := Examples.plan_cmd |}.
Proof.
  rewrite (X14_run_command_real_result (Examples.host ∅ None 3)
             (Examples.runner "default" false) Examples.plan_cmd Examples.start
             "." "/home/runner/work"
             {| returncode := 3; out := ""; err := "workspace error" |});
    reflexivity.
Defined.

(** X15. [run_command] leaves the process in the directory it started in
    whenever going back there works, on every path: dry run, normal
    return, failure to enter the directory, failure to start the child. An
    exception of the child is then the exception [run_command] raises. *)
Theorem X15_run_command_restores_cwd (os : OS) (self : TerraformRunner)
    (cmd : list string) (s : state) :
  (forall here, chdir os here (cwd s) = Ok (cwd s)) ->
  cwd (snd (run_command os self cmd s)) = cwd s /\
  (dry_run self = false ->
   last (trace (snd (run_command os self cmd s))) = Some (Chdir (cwd s))) /\
  (forall d1 e,
     dry_run self = false ->
     chdir os (cwd s) (config_py.tf_directory (config self)) = Ok d1 ->
     subprocess_run os d1 cmd None = Raise e ->
     fst (run_command os self cmd s) = Raise e).
Proof.
  intros Hback. destruct (dry_run self) eqn:Hd.
  - rewrite (run_command_dry os self cmd s Hd). cbn.
    split; [reflexivity|]. split; [discriminate|]. discriminate.
  - rewrite (run_command_real os self cmd s Hd).
    destruct (chdir os (cwd s) (config_py.tf_directory (config self))) as [d1|e1].
    + rewrite (Hback d1). cbn. split; [reflexivity|]. split.
      * intros _.
        change (trace s ++ [Invoke cmd; Chdir (config_py.tf_directory (config self));
                            Spawn d1 cmd None; Chdir (cwd s)])
          with (trace s ++ [Invoke cmd; Chdir (config_py.tf_directory (config self));
                            Spawn d1 cmd None] ++ [Chdir (cwd s)]).
        rewrite app_assoc. apply last_snoc.
      * intros d e _ [= <-] ->. reflexivity.
    + rewrite (Hback (cwd s)). cbn. split; [reflexivity|]. split.
      * intros _.
        change (trace s ++ [Invoke cmd; Chdir (cwd s)])
          with (trace s ++ [Invoke cmd] ++ [Chdir (cwd s)]).
        rewrite app_assoc. apply last_snoc.
      * intros d e _ [=].
Qed.

Lemma X15_run_command_restores_cwd_witness :
  cwd (snd (run_command MoreExamples.host_no_exec (Examples.runner "default" false)
              Examples.plan_cmd Examples.start)) = cwd Examples.start /\
  fst (run_command MoreExamples.host_no_exec (Examples.runner "default" false)
         Examples.plan_cmd Examples.start) =
    Raise (OSError "No such file or directory").
Proof.
  destruct (X15_run_command_restores_cwd MoreExamples.host_no_exec
              (Examples.runner "default" false) Examples.plan_cmd Examples.start)
    as (H1 & _ & H3); [reflexivity|].
  split; [exact H1|]. apply (H3 "."); reflexivity.
Defined.

(** X16. [run_command] starts a child process exactly when it runs in real
    mode and entering the configured directory succeeds, and then one
    child, with the given command; when entering the directory fails it
    raises without starting anything. *)
Theorem X16_run_command_spawns (os : OS) (self : TerraformRunner)
    (cmd : list string) (s : state) :
  spawned (events_of (run_command os self cmd) s) =
    (if dry_run self then []
     else match chdir os (cwd s) (config_py.tf_directory (config self)) with
          | Ok _ => [cmd]
          | Raise _ => []
          end) /\
  (dry_run self = false ->
   forall e, chdir os (cwd s) (config_py.tf_directory (config self)) = Raise e ->
   exists e', fst (run_command os self cmd s) = Raise e').
Proof.
  destruct (dry_run self) eqn:Hd.
  - split; [|discriminate].
    rewrite (events_of_app (run_command os self cmd) s [Invoke cmd]); [reflexivity|].
    now rewrite (run_command_dry os self cmd s Hd).
  - pose proof (run_command_real os self cmd s Hd) as Hr.
    destruct (chdir os (cwd s) (config_py.tf_directory (config self))) as [d1|e1].
    + split; [|intros _ e [=]].
      destruct (chdir os d1 (cwd s)) as [d2|e2];
        (erewrite events_of_app; [|rewrite Hr; reflexivity]); reflexivity.
    + split.
      * destruct (chdir os (cwd s) (cwd s)) as [d2|e2];
          (erewrite events_of_app; [|rewrite Hr; reflexivity]); reflexivity.
      * intros _ e _. rewrite Hr. destruct (chdir os (cwd s) (cwd s)); cbn; eauto.
Qed.

Lemma X16_run_command_spawns_witness :
  exists e',
    fst (run_command MoreExamples.host_no_dir (Examples.runner "default" false)
           Examples.plan_cmd Examples.start) = Raise e'.
Proof.
  apply (proj2 (X16_run_command_spawns MoreExamples.host_no_dir
                  (Examples.runner "default" false) Examples.plan_cmd Examples.start)
           eq_refl (OSError "No such file or directory")).
  reflexivity.
Defined.

End RunnerFacts.

Section RunFacts2.
Import Py Eff Sys Obs ObsMore terraform_runner_py.

Lemma run_command_result_command (os : OS) (self : TerraformRunner)
    (cmd : list string) (s s' : state) (r : CommandResult) :
  run_command os self cmd s = (Ok r, s') -> command r = cmd.
Proof.
  destruct (dry_run self) eqn:Hd.
  - rewrite (run_command_dry os self cmd s Hd). now intros [= <- _].
  - rewrite (run_command_real os self cmd s Hd).
    destruct (chdir os (cwd s) _) as [d1|e1].
    + destruct (chdir os d1 (cwd s)); [|discriminate].
      destruct (subprocess_run os d1 cmd None); [|discriminate].
      now intros [= <- _].
    + destruct (chdir os (cwd s) (cwd s)); discriminate.
Qed.

Lemma run_unselected (os : OS) (self : TerraformRunner) (s : state)
    (main_cmd : list string) :
  selects (config_py.workspace (config self)) = false ->
  build_command self (config_py.command (config self)) = Ok main_cmd ->
  run os self s = run_command os self main_cmd s.
Proof.
  unfold selects. intros Hs Hb. unfold run, bind at 1. rewrite Hs.
  unfold ret at 1, bind at 1, lift. now rewrite Hb.
Qed.

Lemma run_selected (os : OS) (self : TerraformRunner) (s : state)
    (main_cmd : list string) :
  selects (config_py.workspace (config self)) = true ->
  build_command self (config_py.command (config self)) = Ok main_cmd ->
  run os self s =
    match run_command os self (build_workspace_command self) s with
    | (Ok workspace_result, s1) =>
        if return_code workspace_result =? 0
        then run_command os self main_cmd s1
        else (Ok workspace_result, s1)
    | (Raise e, s1) => (Raise e, s1)
    end.
Proof.
  unfold selects. intros Hs Hb. unfold run, bind at 1. rewrite Hs.
  unfold bind at 1.
  destruct (run_command os self (build_workspace_command self) s) as [[wr|e] s1];
    [|reflexivity].
  destruct (return_code wr =? 0); cbn [negb]; unfold ret; [|reflexivity].
  unfold bind, lift. now rewrite Hb.
Qed.

(** X17. [run] sequences its two steps. An exception of the workspace
    command is the exception of [run], and nothing follows it; after a
    workspace command that returns 0, and when no workspace is selected,
    [run] is the main command run from the state reached. *)
Theorem X17_run_sequencing (os : OS) (self : TerraformRunner) (s : state)
    (main_cmd : list string) :
  build_command self (config_py.command (config self)) = Ok main_cmd ->
  (forall e s1,
     selects (config_py.workspace (config self)) = true ->
     run_command os self (build_workspace_command self) s = (Raise e, s1) ->
     run os self s = (Raise e, s1)) /\
  (forall workspace_result s1,
     selects (config_py.workspace (config self)) = true ->
     run_command os self (build_workspace_command self) s = (Ok workspace_result, s1) ->
     return_code workspace_result = 0 ->
     run os self s = run_command os self main_cmd s1) /\
  (selects (config_py.workspace (config self)) = false ->
   run os self s = run_command os self main_cmd s).
Proof.
  intros Hb. split; [|split].
  - intros e s1 Hs Hw. now rewrite (run_selected os self s main_cmd Hs Hb), Hw.
  - intros wr s1 Hs Hw Hrc.
    now rewrite (run_selected os self s main_cmd Hs Hb), Hw, Hrc.
  - intros Hs. now apply run_unselected.
Qed.

Lemma X17_run_sequencing_witness :
  run MoreExamples.host_no_exec (Examples.runner "staging" false) Examples.start =
    (Raise (OSError "No such file or directory"),
     {| cwd := "/home/runner/work";
        trace :=
          [Invoke ["/usr/bin/terraform"; "workspace"; "select"; "-or-create=true";
                   "staging"];
           Chdir ".";
           Spawn "." ["/usr/bin/terraform"; "workspace"; "select"; "-or-create=true";
                      "staging"] None;
           Chdir "/home/runner/work"] |}).
Proof.
  apply (proj1 (X17_run_sequencing MoreExamples.host_no_exec
                  (Examples.runner "staging" false) Examples.start
                  ["/usr/bin/terraform"; "plan"; "-input=false"; "-var-file=dev.tfvars";
                   "-var-file=common.tfvars"; "-var=env=dev"] eq_refl));
    reflexivity.
Defined.

(** X18. The result [run] returns belongs to the last command it handed to
    [run_command]: its [command] field is that command, the workspace
    command or the command of the configured operation. *)
Theorem X18_run_result_command (os : OS) (self : TerraformRunner) (s s' : state)
    (result : CommandResult) :
  run os self s = (Ok result, s') ->
  last (invoked (events_of (run os self) s)) = Some (command result) /\
  (command result = build_workspace_command self \/
   build_command self (config_py.command (config self)) = Ok (command result)).
Proof.
  intros Hrun. pose proof Hrun as Hrun'.
  pose proof (build_command_total self (config_py.command (config self))) as Hb.
  destruct (selects (config_py.workspace (config self))) eqn:Hs.
  - rewrite (run_selected os self s _ Hs Hb) in Hrun.
    destruct (run_command os self (build_workspace_command self) s)
      as [[wr|e] s1] eqn:E1; [|discriminate].
    destruct (run_command_events _ _ _ _ _ _ E1) as (ev1 & Ht1 & Hi1 & _).
    destruct (return_code wr =? 0) eqn:Ez.
    + destruct (run_command_events _ _ _ _ _ _ Hrun) as (ev2 & Ht2 & Hi2 & _).
      assert (Htr : trace (snd (run os self s)) = trace s ++ (ev1 ++ ev2))
        by (rewrite Hrun'; cbn; now rewrite Ht2, Ht1, app_assoc).
      rewrite (events_of_app _ _ _ Htr), invoked_app, Hi1, Hi2.
      rewrite (run_command_result_command _ _ _ _ _ _ Hrun).
      split; [reflexivity|]. right. exact Hb.
    + injection Hrun as <- <-.
      assert (Htr : trace (snd (run os self s)) = trace s ++ ev1)
        by (now rewrite Hrun').
      rewrite (events_of_app _ _ _ Htr), Hi1.
      rewrite (run_command_result_command _ _ _ _ _ _ E1).
      split; [reflexivity|]. now left.
  - rewrite (run_unselected os self s _ Hs Hb) in Hrun.
    destruct (run_command_events _ _ _ _ _ _ Hrun) as (ev2 & Ht2 & Hi2 & _).
    assert (Htr : trace (snd (run os self s)) = trace s ++ ev2)
      by (now rewrite Hrun').
    rewrite (events_of_app _ _ _ Htr), Hi2.
    rewrite (run_command_result_command _ _ _ _ _ _ Hrun).
    split; [reflexivity|]. right. exact Hb.
Qed.

Lemma X18_run_result_command_witness :
  last (invoked (events_of (run (Examples.host ∅ None 3)
                              (Examples.runner "staging" false)) Examples.start)) =
    Some ["/usr/bin/terraform"; "workspace"; "select"; "-or-create=true"; "staging"].
Proof.
  apply (X18_run_result_command (Examples.host ∅ None 3) (Examples.runner "staging" false)
           Examples.start
           {| cwd := "/home/runner/work";
              trace :=
                [Invoke ["/usr/bin/terraform"; "workspace"; "select";
                         "-or-create=true"; "staging"];
                 Chdir ".";
                 Spawn "." ["/usr/bin/terraform"; "workspace"; "select";
                            "-or-create=true"; "staging"] None;
                 Chdir "/home/runner/work"] |}
           {| return_code := 3; stdout := ""; stderr := "workspace error";
              command := ["/usr/bin/terraform"; "workspace"; "select";
                          "-or-create=true"; "staging"] |}).
  reflexivity.
Defined.

Lemma run_dry_exact (os : OS) (self : TerraformRunner) (s : state)
    (main_cmd : list string) :
  dry_run self = true ->
  build_command self (config_py.command (config self)) = Ok main_cmd ->
  run os self s =
    (Ok {| return_code := 0;
           stdout := "[DRY RUN] Would execute: " +:+ join " " main_cmd;
           stderr := "";
           command := main_cmd |},
     {| cwd := cwd s;
        trace := trace s ++
          (if selects (config_py.workspace (config self))
           then [Invoke (build_workspace_command self)] else [])
          ++ [Invoke main_cmd] |}).
Proof.
  intros Hd Hb.
  destruct (selects (config_py.workspace (config self))) eqn:Hs.
  - rewrite (run_selected os self s _ Hs Hb), (run_command_dry os self _ s Hd).
    cbn [return_code Z.eqb]. rewrite (run_command_dry os self _ _ Hd).
    cbn [cwd trace]. now rewrite <- app_assoc.
  - rewrite (run_unselected os self s _ Hs Hb), (run_command_dry os self _ s Hd).
    reflexivity.
Qed.

(** X19. A dry run of [run] touches nothing outside: it returns code 0 and
    a standard output that quotes the space-joined main command, and all it
    adds to the trace is the record of the commands it would have run, the
    workspace command first when the workspace is selected; the working
    directory stays. *)
Theorem X19_run_dry_run (os : OS) (self : TerraformRunner) (s : state)
    (main_cmd : list string) :
  dry_run self = true ->
  build_command self (config_py.command (config self)) = Ok main_cmd ->
  run os self s =
    (Ok {| return_code := 0;
           stdout := "[DRY RUN] Would execute: " +:+ join " " main_cmd;
           stderr := "";
           command := main_cmd |},
     {| cwd := cwd s;
        trace := trace s ++
          (if selects (config_py.workspace (config self))
           then [Invoke (build_workspace_command self)] else [])
          ++ [Invoke main_cmd] |}) /\
  contains (join " " main_cmd)
    ("[DRY RUN] Would execute: " +:+ join " " main_cmd) = true /\
  spawned (events_of (run os self) s) = [].
Proof.
  intros Hd Hb. pose proof (run_dry_exact os self s main_cmd Hd Hb) as Hrun.
  split; [exact Hrun|]. split; [apply contains_end|].
  erewrite events_of_app; [|rewrite Hrun; reflexivity].
  now destruct (selects _).
Qed.

Lemma X19_run_dry_run_witness :
  spawned (events_of (run (Examples.host ∅ None 3) (Examples.runner "staging" true))
             Examples.start) = [].
Proof.
  apply (X19_run_dry_run (Examples.host ∅ None 3) (Examples.runner "staging" true)
           Examples.start
           ["/usr/bin/terraform"; "plan"; "-input=false"; "-var-file=dev.tfvars";
            "-var-file=common.tfvars"; "-var=env=dev"]); reflexivity.
Defined.

End RunFacts2.

(** ** Further properties: the entry point *)

Section EntryFacts.
Import Py Eff Sys Obs ObsMore terraform_runner_py main_py.














End EntryFacts.

Section LevelFacts.
Import Py Eff Sys ObsMore config_py.

Lemma level_of_value_sound (v : string) (l : LogLevel) :
  level_of_value v = Some l ->
  v = match l with
      | DEBUG => "DEBUG" | INFO => "INFO" | WARNING => "WARNING" | ERROR => "ERROR"
      end.
Proof.
  unfold level_of_value.
  repeat match goal with
         | |- context [String.eqb v ?x] => destruct (String.eqb_spec v x)
         end; intros [= <-]; assumption.
Qed.

Lemma parse_log_level_ascii (u : Unicode) (v : string) :
  is_ascii v = true ->
  _parse_log_level u (strip u v) = _parse_log_level u v /\
  _parse_log_level u (lower u v) = _parse_log_level u v.
Proof.
  intros H. unfold _parse_log_level.
  assert (E1 : strip u (upper u (strip u v)) = strip u (upper u v)).
  { rewrite (strip_upper_ascii u v H).
    rewrite (strip_upper_ascii u (strip u v)) by (now apply strip_is_ascii).
    rewrite (strip_ascii u v H).
    now rewrite ascii_strip_upper, ascii_strip_idem, <- ascii_strip_upper. }
  assert (E2 : strip u (upper u (lower u v)) = strip u (upper u v)).
  { rewrite (strip_upper_ascii u v H), (lower_ascii u v H).
    rewrite (strip_upper_ascii u (ascii_lower v)) by (now apply is_ascii_lower).
    now rewrite ascii_upper_lower. }
  now rewrite E1, E2.
Qed.

(** X24. On ASCII text [_parse_log_level] ignores case and surrounding
    whitespace. On any text it gives a level other than INFO only for a
    string that normalises, by [upper] then [strip], to that level's name:
    anything unrecognised is INFO. *)
Theorem X24_parse_log_level_normalises (u : Unicode) (v : string) :
  (is_ascii v = true ->
   _parse_log_level u (strip u v) = _parse_log_level u v /\
   _parse_log_level u (lower u v) = _parse_log_level u v) /\
  (_parse_log_level u v = DEBUG -> strip u (upper u v) = "DEBUG") /\
  (_parse_log_level u v = WARNING -> strip u (upper u v) = "WARNING") /\
  (_parse_log_level u v = ERROR -> strip u (upper u v) = "ERROR") /\
  (level_of_value (strip u (upper u v)) = None -> _parse_log_level u v = INFO).
Proof.
  split; [apply parse_log_level_ascii|].
  unfold _parse_log_level.
  destruct (level_of_value (strip u (upper u v))) as [l|] eqn:E;
    [apply level_of_value_sound in E|];
    repeat split; intros H; try discriminate H; subst; try exact E; reflexivity.
Qed.

Lemma X24_parse_log_level_normalises_witness :
  (_parse_log_level Examples.runtime (strip Examples.runtime " warning ") =
     _parse_log_level Examples.runtime " warning " /\
   _parse_log_level Examples.runtime (lower Examples.runtime " warning ") =
     _parse_log_level Examples.runtime " warning ") /\
  strip Examples.runtime (upper Examples.runtime " warning ") = "WARNING" /\
  _parse_log_level Examples.runtime "verbose" = INFO.
Proof.
  split; [|split].
  - apply (X24_parse_log_level_normalises Examples.runtime " warning "). reflexivity.
  - apply (X24_parse_log_level_normalises Examples.runtime " warning "). reflexivity.
  - apply (X24_parse_log_level_normalises Examples.runtime "verbose"). reflexivity.
Defined.

End LevelFacts.

Section ConstructorFacts.
Import Py Eff Sys Obs ObsMore terraform_runner_py.

(** X25. Constructing a runner leaves the state as it is and either raises
    the tool-not-found [RuntimeError] or returns a runner with the given
    configuration and mode and a non-empty tool path. A non-empty path
    given by the caller is used without looking the tool up; an empty one
    is treated as none. *)
Theorem X25_new_runner (os : OS) (c : config_py.ActionConfig)
    (terraform_path : option string) (dry : bool) (s : state) :
  snd (new os c terraform_path dry s) = s /\
  (forall r, fst (new os c terraform_path dry s) = Ok r ->
     config r = c /\ dry_run r = dry /\ terraform_runner_py.terraform_path r <> "") /\
  (forall e, fst (new os c terraform_path dry s) = Raise e ->
     is_RuntimeError e = true /\
     truthy terraform_path = false /\ truthy (which os "terraform") = false) /\
  (forall p, terraform_path = Some p -> p <> "" ->
     new os c terraform_path dry s =
       (Ok {| config := c; terraform_path := p; dry_run := dry |}, s)) /\
  (truthy terraform_path = false ->
   new os c terraform_path dry s = new os c None dry s).
Proof.
  unfold new, _find_terraform, bind, ret, raise.
  destruct (truthy terraform_path) eqn:Ht.
  - cbn. split; [reflexivity|]. split; [|split; [|split]].
    + intros r [= <-]. cbn. repeat split. now apply truthy_default.
    + intros e [=].
    + intros p -> Hp. reflexivity.
    + discriminate.
  - cbn [truthy]. destruct (truthy (which os "terraform")) eqn:Hw; cbn.
    + split; [reflexivity|]. split; [|split; [|split]].
      * intros r [= <-]. cbn. repeat split. now apply truthy_default.
      * intros e [=].
      * intros p -> Hp. rewrite (truthy_Some p Hp) in Ht. discriminate.
      * reflexivity.
    + split; [reflexivity|]. split; [|split; [|split]].
      * intros r [=].
      * intros e [= <-]. repeat split.
      * intros p -> Hp. rewrite (truthy_Some p Hp) in Ht. discriminate.
      * reflexivity.
Qed.

Lemma X25_new_runner_witness :
  new (Examples.host ∅ None 0) Examples.cfg_default (Some "/opt/terraform") false
    Examples.start =
    (Ok {| config := Examples.cfg_default; terraform_path := "/opt/terraform";
           dry_run := false |}, Examples.start).
Proof.
  apply (X25_new_runner (Examples.host ∅ None 0) Examples.cfg_default
           (Some "/opt/terraform") false Examples.start).
  - reflexivity.
  - discriminate.
Defined.

End ConstructorFacts.
